(** * Google Maps and Google Sheets gateways: a shallow embedding

    The two service classes of [backend/google_services] ([maps.py] and
    [sheets.py]) forward their arguments to a vendor client, reshape the
    answer and either re-raise or swallow failures.  The embedding keeps
    that shape:

    - Python values that travel through the code (JSON payloads, request
      parameters, cells) are the inductive [Py.pyval];
    - a method is a computation in a state-and-exception monad whose state
      is the remote world together with the log of vendor calls issued so
      far; an exception leaves the state as it was when it was raised;
    - the vendor (the googlemaps client, [requests.get], the Sheets
      resource) is a record of oracles over an arbitrary world type, so
      every theorem holds for every behaviour of the remote services.

    Text is modelled as sequences of Latin-1 code points (the type
    [string]); [logger.error], [print] and [gc.collect] have no effect on
    what a caller can observe and are left out.  [asyncio.to_thread f] runs
    [f] and hands back its result or its exception, so an awaited call is
    the call itself. *)

From Stdlib Require Import String Ascii List ZArith QArith Bool Arith Lia.
From Stdlib Require Import Numbers.DecimalString.
Import ListNotations.

Set Warnings "-register-all".

Local Close Scope Q_scope.
Local Open Scope nat_scope.
Local Open Scope string_scope.
Local Open Scope list_scope.

(* ===================================================================== *)
(** * Python values, exceptions and effects                               *)
(* ===================================================================== *)

Module Py.

(** Classes of the exceptions met in the two files.  All of them derive
    from [Exception], which is what the handlers of the source catch. *)
Inductive exn_class : Type :=
| ValueError
| TypeError
| KeyError
| IndexError
| AttributeError
| HTTPError
| RequestException
| ApiError.

Record exn : Type := mkExn { exn_cls : exn_class; exn_msg : string }.

Inductive result (A : Type) : Type :=
| Return (a : A)
| Raise (e : exn).

Arguments Return {A} a.
Arguments Raise {A} e.

(** JSON-shaped Python values.  A float is identified by its [repr]; a
    dict is the list of its items in insertion order. *)
Inductive pyval : Type :=
| JNull
| JBool (b : bool)
| JInt (z : Z)
| JFloat (repr : string)
| JStr (s : string)
| JList (l : list pyval)
| JDict (kvs : list (string * pyval)).

Fixpoint lookup (k : string) (kvs : list (string * pyval)) : option pyval :=
  match kvs with
  | [] => None
  | (k', v) :: rest => if String.eqb k k' then Some v else lookup k rest
  end.

(** [bool(v)], as used by [if not result] and [if query]. *)
Definition truthy (v : pyval) : bool :=
  match v with
  | JNull => false
  | JBool b => b
  | JInt z => negb (Z.eqb z 0)
  | JFloat r => negb (String.eqb r "0.0" || String.eqb r "-0.0")
  | JStr s => negb (String.eqb s "")
  | JList l => match l with [] => false | _ => true end
  | JDict kvs => match kvs with [] => false | _ => true end
  end.

Definition is_none (v : pyval) : bool :=
  match v with JNull => true | _ => false end.

Definition key_error (k : string) : exn := mkExn KeyError ("'" ++ k ++ "'").

Definition type_name (v : pyval) : string :=
  match v with
  | JNull => "NoneType"
  | JBool _ => "bool"
  | JInt _ => "int"
  | JFloat _ => "float"
  | JStr _ => "str"
  | JList _ => "list"
  | JDict _ => "dict"
  end.

(** [v[k]] for a string key [k]. *)
Definition getitem (v : pyval) (k : string) : result pyval :=
  match v with
  | JDict kvs =>
      match lookup k kvs with
      | Some x => Return x
      | None => Raise (key_error k)
      end
  | JList _ => Raise (mkExn TypeError "list indices must be integers or slices, not str")
  | JStr _ => Raise (mkExn TypeError "string indices must be integers, not 'str'")
  | _ => Raise (mkExn TypeError ("'" ++ type_name v ++ "' object is not subscriptable"))
  end.

(** [v[0]]. *)
Definition getitem0 (v : pyval) : result pyval :=
  match v with
  | JList (x :: _) => Return x
  | JList [] => Raise (mkExn IndexError "list index out of range")
  | JStr (String c _) => Return (JStr (String c ""))
  | JStr "" => Raise (mkExn IndexError "string index out of range")
  | JDict _ => Raise (mkExn KeyError "0")
  | _ => Raise (mkExn TypeError ("'" ++ type_name v ++ "' object is not subscriptable"))
  end.

(** [v.get(k, default)]: only a dict has the method. *)
Definition dict_get (v : pyval) (k : string) (default : pyval) : result pyval :=
  match v with
  | JDict kvs =>
      match lookup k kvs with
      | Some x => Return x
      | None => Return default
      end
  | _ => Raise (mkExn AttributeError
                  ("'" ++ type_name v ++ "' object has no attribute 'get'"))
  end.

Fixpoint chars (s : string) : list pyval :=
  match s with
  | "" => []
  | String c rest => JStr (String c "") :: chars rest
  end.

(** The items a [for] loop visits. *)
Definition iterate (v : pyval) : result (list pyval) :=
  match v with
  | JList l => Return l
  | JStr s => Return (chars s)
  | JDict kvs => Return (map (fun kv => JStr (fst kv)) kvs)
  | _ => Raise (mkExn TypeError ("'" ++ type_name v ++ "' object is not iterable"))
  end.

(** [str] on text is the text itself; its value on anything else is the
    parameter [fmt] of the places that need it. *)
Definition str_of (fmt : pyval -> string) (v : pyval) : string :=
  match v with
  | JStr s => s
  | _ => fmt v
  end.

(** [str(n)] for a natural number and for an integer. *)
Definition dec (n : nat) : string := NilEmpty.string_of_uint (Nat.to_uint n).
Definition decZ (z : Z) : string := NilEmpty.string_of_int (Z.to_int z).

(** [sep.join(parts)]. *)
Definition join (sep : string) (parts : list string) : string :=
  String.concat sep parts.

(** ** Text predicates of [str] on Latin-1 text *)

Definition code (c : ascii) : nat := nat_of_ascii c.

(** [c.lower()]: the upper-case letters below U+0100 are A-Z, U+00C0-U+00D6
    and U+00D8-U+00DE, each 32 below its lower-case form. *)
Definition lower_char (c : ascii) : ascii :=
  let n := code c in
  if ((65 <=? n)%nat && (n <=? 90)%nat) || ((192 <=? n)%nat && (n <=? 214)%nat)
     || ((216 <=? n)%nat && (n <=? 222)%nat)
  then ascii_of_nat (n + 32) else c.

Fixpoint lower (s : string) : string :=
  match s with
  | "" => ""
  | String c rest => String (lower_char c) (lower rest)
  end.

(** [needle in hay]. *)
Fixpoint contains (needle hay : string) : bool :=
  String.prefix needle hay ||
  match hay with
  | "" => false
  | String _ rest => contains needle rest
  end.

Definition ascii_digit (c : ascii) : bool :=
  (48 <=? code c)%nat && (code c <=? 57)%nat.

(** The characters below U+0100 for which [isdigit] holds: 0-9 and the
    superscripts U+00B2, U+00B3, U+00B9. *)
Definition digit_char (c : ascii) : bool :=
  ascii_digit c || (code c =? 178)%nat || (code c =? 179)%nat || (code c =? 185)%nat.

Fixpoint all_chars (p : ascii -> bool) (s : string) : bool :=
  match s with
  | "" => true
  | String c rest => p c && all_chars p rest
  end.

(** [s.isdigit()]. *)
Definition isdigit (s : string) : bool :=
  negb (String.eqb s "") && all_chars digit_char s.

Fixpoint digits_value (acc : Z) (s : string) : Z :=
  match s with
  | "" => acc
  | String c rest => digits_value (10 * acc + Z.of_nat (code c - 48)) rest
  end.

(** [float(s)] on the strings that reach it here (those with [isdigit]):
    a superscript digit is rejected. *)
Definition float_of (s : string) : result Q :=
  if negb (String.eqb s "") && all_chars ascii_digit s
  then Return (inject_Z (digits_value 0 s))
  else Raise (mkExn ValueError ("could not convert string to float: '" ++ s ++ "'")).

(** ** The monad: state that survives an exception *)

Section Effects.
Context {St : Type}.

Definition M (A : Type) : Type := St -> result A * St.

Definition ret {A} (a : A) : M A := fun s => (Return a, s).

Definition raise {A} (e : exn) : M A := fun s => (Raise e, s).

Definition bind {A B} (m : M A) (k : A -> M B) : M B :=
  fun s =>
    match m s with
    | (Return a, s') => k a s'
    | (Raise e, s') => (Raise e, s')
    end.

Definition lift {A} (r : result A) : M A := fun s => (r, s).

(** [try: m  except Exception as e: h e]. *)
Definition try_except {A} (m : M A) (h : exn -> M A) : M A :=
  fun s =>
    match m s with
    | (Return a, s') => (Return a, s')
    | (Raise e, s') => h e s'
    end.

(** [try: m  except Exception as e: logger.error(...); raise]. *)
Definition log_and_reraise {A} (m : M A) : M A :=
  try_except m (fun e => raise e).

End Effects.

Arguments M St A : clear implicits.

(** A loop that appends one item per iteration to a fresh list and stops
    at the first exception. *)
Fixpoint collect {A B} (f : A -> result B) (l : list A) : result (list B) :=
  match l with
  | [] => Return []
  | x :: rest =>
      match f x with
      | Raise e => Raise e
      | Return y =>
          match collect f rest with
          | Raise e => Raise e
          | Return ys => Return (y :: ys)
          end
      end
  end.

Definition rbind {A B} (r : result A) (k : A -> result B) : result B :=
  match r with
  | Return a => k a
  | Raise e => Raise e
  end.

End Py.

Declare Scope py_scope.
Delimit Scope py_scope with py.
Notation "x <- c ;; k" := (Py.bind c (fun x => k))
  (at level 61, c at next level, right associativity) : py_scope.
Notation "c ;;; k" := (Py.bind c (fun _ => k))
  (at level 61, right associativity) : py_scope.
Notation "x <~ r ;; k" := (Py.rbind r (fun x => k))
  (at level 61, r at next level, right associativity) : py_scope.

Local Open Scope py_scope.

(* ===================================================================== *)
(** * maps.py: GoogleMapsService                                          *)
(* ===================================================================== *)

Module Maps.
Import Py.

(** What [requests.get] hands back: a status code and, when the body is
    JSON, its decoded value. *)
Record response : Type := mkResponse { status_code : Z; body : option pyval }.

(** [response.raise_for_status()]. *)
Definition raise_for_status (r : response) : result unit :=
  if (400 <=? status_code r)%Z && (status_code r <? 600)%Z
  then Raise (mkExn HTTPError (decZ (status_code r) ++ " Error"))
  else Return tt.

(** [response.json()]. *)
Definition json (r : response) : result pyval :=
  match body r with
  | Some v => Return v
  | None => Raise (mkExn ValueError "Expecting value")
  end.

(** The calls that leave the process. *)
Inductive call : Type :=
| Directions (origin destination mode : string) (alternatives : bool)
| DistanceMatrix (origins destinations : list string) (mode : string)
| Geocode (address : string)
| HttpGet (url : string) (params : list (string * pyval)) (timeout : option Z).

(** The remote side: [self.client], [self.directions_service] and
    [requests.get], each answering or raising, over a world [W]. *)
Record vendor (W : Type) : Type := mkVendor {
  directions_service : string -> string -> string -> bool -> W -> result pyval * W;
  distance_matrix : list string -> list string -> string -> W -> result pyval * W;
  geocode : string -> W -> result pyval * W;
  requests_get : string -> list (string * pyval) -> option Z -> W -> result response * W
}.

Arguments directions_service {W} v _ _ _ _ _.
Arguments distance_matrix {W} v _ _ _ _.
Arguments geocode {W} v _ _.
Arguments requests_get {W} v _ _ _ _.

Definition nearbysearch_url : string :=
  "https://maps.googleapis.com/maps/api/place/nearbysearch/json".

Section Service.
Context {W : Type}.
Variable client : vendor W.
(** [self.api_key]. *)
Variable api_key : string.
(** Python's [str] on values that are not text. *)
Variable fmt : pyval -> string.

Definition state : Type := (W * list call)%type.
Definition io (A : Type) : Type := M state A.

(** Issue a vendor call: log it, let the world answer. *)
Definition issue {A} (c : call) (f : W -> result A * W) : io A :=
  fun s =>
    let (r, w') := f (fst s) in
    (r, (w', snd s ++ [c])).

Definition call_directions (origin destination mode : string) (alternatives : bool)
  : io pyval :=
  issue (Directions origin destination mode alternatives)
        (directions_service client origin destination mode alternatives).

Definition call_distance_matrix (origins destinations : list string) (mode : string)
  : io pyval :=
  issue (DistanceMatrix origins destinations mode)
        (distance_matrix client origins destinations mode).

Definition call_geocode (address : string) : io pyval :=
  issue (Geocode address) (geocode client address).

Definition call_requests_get (url : string) (params : list (string * pyval))
           (timeout : option Z) : io response :=
  issue (HttpGet url params timeout) (requests_get client url params timeout).

(** ** get_directions *)

(** One entry of [directions]: distance text, duration text, steps. *)
Record route_info : Type := mkRoute {
  distance : pyval;
  duration : pyval;
  steps : list pyval
}.

(** Body of the first loop, for one [route]. *)
Definition route_entry (route : pyval) : result route_info :=
  legs <~ getitem route "legs" ;;
  leg <~ getitem0 legs ;;
  leg_steps <~ getitem leg "steps" ;;
  items <~ iterate leg_steps ;;
  steps <~ collect (fun step => getitem step "html_instructions") items ;;
  legs <~ getitem route "legs" ;;
  leg <~ getitem0 legs ;;
  d <~ getitem leg "distance" ;;
  dtext <~ getitem d "text" ;;
  legs <~ getitem route "legs" ;;
  leg <~ getitem0 legs ;;
  t <~ getitem leg "duration" ;;
  ttext <~ getitem t "text" ;;
  Return (mkRoute dtext ttext steps).

(** Body of the second loop: the lines appended for route number [i]. *)
Definition append_route (response : list string) (i : nat) (route : route_info)
  : list string :=
  let response := response ++ [("Route " ++ dec i ++ ":")%string] in
  let response := response ++ [("Distance: " ++ str_of fmt (distance route))%string] in
  let response := response ++ [("Duration: " ++ str_of fmt (duration route))%string] in
  let response := response ++ ["Steps:"%string] in
  let response :=
    fold_left (fun acc step => acc ++ [("- " ++ str_of fmt step)%string])
              (steps route) response in
  response ++ [""%string].

(** [for i, route in enumerate(directions, i0)]. *)
Fixpoint format_routes (response : list string) (i : nat) (directions : list route_info)
  : list string :=
  match directions with
  | [] => response
  | route :: rest => format_routes (append_route response i route) (S i) rest
  end.

Definition get_directions (origin destination : string) : io string :=
  try_except
    (result <- call_directions origin destination "driving" true ;;
     if negb (truthy result) then ret "No directions found."
     else
       routes <- lift (iterate result) ;;
       directions <- lift (collect route_entry routes) ;;
       ret (join (String "010"%char "") (format_routes [] 1 directions)))
    (fun e => ret ("Error getting directions: " ++ exn_msg e)%string).

(** ** get_distance_matrix *)

Definition get_distance_matrix (origins destinations : list string) (mode : string)
  : io pyval :=
  log_and_reraise (call_distance_matrix origins destinations mode).

(** ** geocode_address *)

Definition geocode_address (address : string) : io (pyval * pyval) :=
  log_and_reraise
    (result <- call_geocode address ;;
     if negb (truthy result)
     then raise (mkExn ValueError ("No geocoding result for address: " ++ address))
     else
       first <- lift (getitem0 result) ;;
       geometry <- lift (getitem first "geometry") ;;
       location <- lift (getitem geometry "location") ;;
       lat <- lift (getitem location "lat") ;;
       lng <- lift (getitem location "lng") ;;
       ret (lat, lng)).

(** ** The place summaries of the two direct HTTP searches *)

Definition place_summary (found : pyval) : result pyval :=
  name <~ dict_get found "name" (JStr "Unknown") ;;
  address <~ dict_get found "vicinity" (JStr "No address") ;;
  rating <~ dict_get found "rating" (JStr "No rating") ;;
  place_id <~ dict_get found "place_id" (JStr "") ;;
  geometry <~ dict_get found "geometry" (JDict []) ;;
  location <~ dict_get geometry "location" (JDict []) ;;
  Return (JDict [("name", name); ("address", address); ("rating", rating);
                 ("place_id", place_id); ("location", location)]).

(** ** _find_places_nearby *)

Definition nearby_params (lat lng : pyval) (radius : Z) : list (string * pyval) :=
  [("location", JStr (str_of fmt lat ++ "," ++ str_of fmt lng));
   ("radius", JInt radius);
   ("key", JStr api_key);
   ("type", JStr "gym")].

Definition _find_places_nearby (lat lng : pyval) (type_filter : option (list string))
           (radius : Z) : io (list pyval) :=
  try_except
    (response <- call_requests_get nearbysearch_url (nearby_params lat lng radius)
                                   (Some 10%Z) ;;
     lift (raise_for_status response) ;;;
     payload <- lift (json response) ;;
     results <- lift (dict_get payload "results" (JList [])) ;;
     items <- lift (iterate results) ;;
     places <- lift (collect place_summary items) ;;
     ret places)
    (fun e => ret []).

(** ** find_nearby_workout_locations *)

Definition find_nearby_workout_locations (location_or_address : pyval)
  : io (list pyval) :=
  try_except
    (match location_or_address with
     | JStr address =>
         coords <- geocode_address address ;;
         _find_places_nearby (fst coords) (snd coords) (Some ["gym"; "fitness"]) 50000
     | JDict kvs =>
         let lat := match lookup "lat" kvs with Some v => v | None => JNull end in
         let lng := match lookup "lng" kvs with Some v => v | None => JNull end in
         if is_none lat || is_none lng
         then raise (mkExn ValueError "Missing lat/lng in location dict.")
         else _find_places_nearby lat lng (Some ["gym"; "fitness"]) 50000
     | _ => raise (mkExn ValueError "Invalid location input.")
     end)
    (fun e => ret []).

(** ** find_running_trails *)

Definition find_running_trails (location : pyval) (radius : Z) : io (list pyval) :=
  try_except
    (lat <- lift (getitem location "lat") ;;
     lng <- lift (getitem location "lng") ;;
     let params :=
       [("location", JStr (str_of fmt lat ++ "," ++ str_of fmt lng));
        ("radius", JInt radius);
        ("keyword", JStr "running trail");
        ("key", JStr api_key)] in
     response <- call_requests_get nearbysearch_url params None ;;
     lift (raise_for_status response) ;;;
     results <- lift (json response) ;;
     listed <- lift (dict_get results "results" (JList [])) ;;
     items <- lift (iterate listed) ;;
     trails <- lift (collect place_summary items) ;;
     ret trails)
    (fun e => ret []).

End Service.



End Maps.

(* ===================================================================== *)
(** * sheets.py: GoogleSheetsService                                      *)
(* ===================================================================== *)

Module Sheets.
Import Py.

Definition row : Type := list pyval.

(** The [ValueRange] answered by [values().get]: the key ['values'] is
    absent when the range holds no data. *)
Record value_range : Type := mkValueRange { values : option (list row) }.

(** [result.get('values', [])]. *)
Definition values_or_empty (r : value_range) : list row :=
  match values r with
  | Some rows => rows
  | None => []
  end.

(** The calls that leave the process, with the keyword arguments the
    source passes. *)
Inductive call : Type :=
| Create (body : pyval)
| SpreadsheetGet (spreadsheetId : pyval)
| ValuesUpdate (spreadsheetId : pyval) (range valueInputOption : string)
               (vals : list row)
| ValuesGet (spreadsheetId : pyval) (range : string)
| ValuesAppend (spreadsheetId : pyval) (range valueInputOption insertDataOption : string)
               (vals : list row)
| BatchUpdate (spreadsheetId : pyval) (requests : list pyval).

(** [self.service.spreadsheets()] over a world [W]. *)
Record vendor (W : Type) : Type := mkVendor {
  create : pyval -> W -> result pyval * W;
  get : pyval -> W -> result pyval * W;
  values_update : pyval -> string -> string -> list row -> W -> result pyval * W;
  values_get : pyval -> string -> W -> result value_range * W;
  values_append : pyval -> string -> string -> string -> list row -> W -> result pyval * W;
  batchUpdate : pyval -> list pyval -> W -> result pyval * W
}.

Arguments create {W} v _ _.
Arguments get {W} v _ _.
Arguments values_update {W} v _ _ _ _ _.
Arguments values_get {W} v _ _ _.
Arguments values_append {W} v _ _ _ _ _ _.
Arguments batchUpdate {W} v _ _ _.

Definition texts (cells : list string) : row := map JStr cells.

(** ** Numbers of the summary

    The totals are kept as exact rationals: a double holds a sum of
    integers exactly below 2^53; the rounding of larger sums and of the
    quotients is not modelled.  No value here is negative. *)

(** Nearest integer, ties to even. *)
Definition round_half_even (q : Q) : Z :=
  let n := Qnum q in
  let d := Zpos (Qden q) in
  let fl := (n / d)%Z in
  let r := (2 * (n mod d))%Z in
  if (r <? d)%Z then fl
  else if (d <? r)%Z then (fl + 1)%Z
       else if Z.even fl then fl else (fl + 1)%Z.

(** [f"{q:.1f}"]. *)
Definition format_1f (q : Q) : string :=
  let t := round_half_even (q * 10)%Q in
  (decZ (t / 10) ++ "." ++ decZ (t mod 10))%string.

Section Service.
Context {W : Type}.
Variable service : vendor W.
(** Python's [str] on cells that are not text. *)
Variable fmt : pyval -> string.

Definition state : Type := (W * list call)%type.
Definition io (A : Type) : Type := M state A.

Definition issue {A} (c : call) (f : W -> result A * W) : io A :=
  fun s =>
    let (r, w') := f (fst s) in
    (r, (w', snd s ++ [c])).

(** ** The thin wrappers *)

Definition create_spreadsheet (title : string) : io pyval :=
  log_and_reraise
    (let spreadsheet := JDict [("properties", JDict [("title", JStr title)])] in
     issue (Create spreadsheet) (create service spreadsheet)).

Definition get_spreadsheet (spreadsheet_id : pyval) : io pyval :=
  log_and_reraise
    (issue (SpreadsheetGet spreadsheet_id) (get service spreadsheet_id)).

Definition update_values (spreadsheet_id : pyval) (range_name : string)
           (vals : list row) : io pyval :=
  log_and_reraise
    (issue (ValuesUpdate spreadsheet_id range_name "RAW" vals)
           (values_update service spreadsheet_id range_name "RAW" vals)).

Definition get_values (spreadsheet_id : pyval) (range_name : string) : io (list row) :=
  log_and_reraise
    (result <- issue (ValuesGet spreadsheet_id range_name)
                     (values_get service spreadsheet_id range_name) ;;
     ret (values_or_empty result)).

Definition append_values (spreadsheet_id : pyval) (range_name : string)
           (vals : list row) : io pyval :=
  log_and_reraise
    (issue (ValuesAppend spreadsheet_id range_name "USER_ENTERED" "INSERT_ROWS" vals)
           (values_append service spreadsheet_id range_name
                          "USER_ENTERED" "INSERT_ROWS" vals)).

Definition batch_update (spreadsheet_id : pyval) (requests : list pyval) : io pyval :=
  log_and_reraise
    (issue (BatchUpdate spreadsheet_id requests)
           (batchUpdate service spreadsheet_id requests)).

(** ** create_workout_tracker *)

Definition grid_sheet (title : string) (rows cols : Z) : pyval :=
  JDict [("properties",
          JDict [("title", JStr title);
                 ("gridProperties",
                  JDict [("rowCount", JInt rows); ("columnCount", JInt cols)])])].

Definition tracker_body (title : string) : pyval :=
  JDict [("properties", JDict [("title", JStr title)]);
         ("sheets", JList [grid_sheet "Workouts" 1000 10;
                           grid_sheet "Nutrition" 1000 10])].

Definition workout_headers : list row :=
  [texts ["Date"; "Workout Type"; "Duration"; "Calories Burned"; "Notes"]].

Definition nutrition_headers : list row :=
  [texts ["Date"; "Meal"; "Calories"; "Protein (g)"; "Carbs (g)"; "Fat (g)"; "Notes"]].

Definition create_workout_tracker (title : string) : io pyval :=
  log_and_reraise
    (let spreadsheet := tracker_body title in
     created_spreadsheet <- issue (Create spreadsheet) (create service spreadsheet) ;;
     id1 <- lift (getitem created_spreadsheet "spreadsheetId") ;;
     update_values id1 "Workouts!A1:E1" workout_headers ;;;
     id2 <- lift (getitem created_spreadsheet "spreadsheetId") ;;
     update_values id2 "Nutrition!A1:G1" nutrition_headers ;;;
     ret created_spreadsheet).

(** ** add_workout_entry, add_nutrition_entry *)

Definition add_workout_entry (spreadsheet_id : pyval)
           (date workout_type duration calories notes : string) : io pyval :=
  log_and_reraise
    (let vals := [texts [date; workout_type; duration; calories; notes]] in
     append_values spreadsheet_id "Workouts!A:E" vals).

Definition add_nutrition_entry (spreadsheet_id : pyval)
           (date meal calories protein carbs fat notes : string) : io pyval :=
  log_and_reraise
    (let vals := [texts [date; meal; calories; protein; carbs; fat; notes]] in
     append_values spreadsheet_id "Nutrition!A:G" vals).

(** ** get_workout_history, get_nutrition_history

    Both are [async def]: the definitions below are the bodies, which run
    when the coroutine is awaited. *)

Definition get_workout_history (spreadsheet_id : pyval) : io (list row) :=
  log_and_reraise
    (result <- issue (ValuesGet spreadsheet_id "Workout History!A:Z")
                     (values_get service spreadsheet_id "Workout History!A:Z") ;;
     ret (values_or_empty result)).

Definition get_nutrition_history (spreadsheet_id : pyval) : io (list row) :=
  log_and_reraise
    (result <- issue (ValuesGet spreadsheet_id "Nutrition History!A:Z")
                     (values_get service spreadsheet_id "Nutrition History!A:Z") ;;
     ret (values_or_empty result)).

(** ** create_workout_summary

    A plain [def] that calls the two [async def] readers without
    awaiting them.  Such a call builds a coroutine object and runs none
    of its body; what the function then holds is a [pyobj]. *)

Inductive pyobj : Type :=
| Rows (rows : list row)
| Coroutine (coro : io (list row)).

(** [f(args)] for an [async def f], not awaited. *)
Definition call_async (coro : io (list row)) : pyobj := Coroutine coro.

(** [len(o)]. *)
Definition len (o : pyobj) : result nat :=
  match o with
  | Rows rows => Return (List.length rows)
  | Coroutine _ => Raise (mkExn TypeError "object of type 'coroutine' has no len()")
  end.

(** [for w in o]. *)
Definition iter_rows (o : pyobj) : result (list row) :=
  match o with
  | Rows rows => Return rows
  | Coroutine _ => Raise (mkExn TypeError "'coroutine' object is not iterable")
  end.

(** [w[i]]. *)
Definition cell_at (w : row) (i : nat) : result pyval :=
  match nth_error w i with
  | Some c => Return c
  | None => Raise (mkExn IndexError "list index out of range")
  end.

(** [c.isdigit()]: a method of text only. *)
Definition cell_isdigit (c : pyval) : result bool :=
  match c with
  | JStr s => Return (isdigit s)
  | _ => Raise (mkExn AttributeError
                  ("'" ++ type_name c ++ "' object has no attribute 'isdigit'"))
  end.

(** [float(c)] for a cell that passed [isdigit]. *)
Definition cell_float (c : pyval) : result Q :=
  match c with
  | JStr s => float_of s
  | _ => Raise (mkExn TypeError "float() argument must be a string or a real number")
  end.

(** [sum(float(w[i]) for w in rows if w[i].isdigit())], from [acc]. *)
Fixpoint sum_digit_fields (i : nat) (rows : list row) (acc : Q) : result Q :=
  match rows with
  | [] => Return acc
  | w :: rest =>
      c <~ cell_at w i ;;
      ok <~ cell_isdigit c ;;
      if ok then
        c' <~ cell_at w i ;;
        x <~ cell_float c' ;;
        sum_digit_fields i rest (acc + x)%Q
      else sum_digit_fields i rest acc
  end.

Definition field_total (i : nat) (o : pyobj) : result Q :=
  rows <~ iter_rows o ;;
  sum_digit_fields i rows 0%Q.

(** [total / count if count > 0 else 0], for a total already computed. *)
Definition average (total : Q) (count : nat) : Q :=
  if (0 <? count)%nat then (total / inject_Z (Z.of_nat count))%Q else 0%Q.

(** [sum(...) / count if count > 0 else 0]: the sum is evaluated only
    when the count is positive. *)
Definition field_average (i : nat) (o : pyobj) (count : nat) : result Q :=
  if (0 <? count)%nat then
    total <~ field_total i o ;;
    Return (total / inject_Z (Z.of_nat count))%Q
  else Return 0%Q.

Definition summary_request : pyval :=
  JDict [("addSheet",
          JDict [("properties",
                  JDict [("title", JStr "Summary");
                         ("gridProperties",
                          JDict [("rowCount", JInt 100); ("columnCount", JInt 10)])])])].

Definition summary_headers : list row :=
  [texts ["Workout Summary"];
   texts ["Total Workouts"; "Total Duration"; "Total Calories Burned";
          "Average Duration"; "Average Calories"];
   texts ["Nutrition Summary"];
   texts ["Total Meals"; "Total Calories"; "Average Protein"; "Average Carbs";
          "Average Fat"]].

Definition create_workout_summary (spreadsheet_id : pyval) : io pyval :=
  log_and_reraise
    (let requests := [summary_request] in
     batch_update spreadsheet_id requests ;;;
     update_values spreadsheet_id "Summary!A1:E4" summary_headers ;;;
     let workouts := call_async (get_workout_history spreadsheet_id) in
     total_workouts <- lift (len workouts) ;;
     total_duration <- lift (field_total 2 workouts) ;;
     total_calories <- lift (field_total 3 workouts) ;;
     let avg_duration := average total_duration total_workouts in
     let avg_calories := average total_calories total_workouts in
     let nutrition := call_async (get_nutrition_history spreadsheet_id) in
     total_meals <- lift (len nutrition) ;;
     total_nutrition_calories <- lift (field_total 2 nutrition) ;;
     avg_protein <- lift (field_average 3 nutrition total_meals) ;;
     avg_carbs <- lift (field_average 4 nutrition total_meals) ;;
     avg_fat <- lift (field_average 5 nutrition total_meals) ;;
     let summary_values :=
       [texts [dec total_workouts; format_1f total_duration; format_1f total_calories;
               format_1f avg_duration; format_1f avg_calories];
        texts [""; ""; ""; ""; ""];
        texts [dec total_meals; format_1f total_nutrition_calories;
               format_1f avg_protein; format_1f avg_carbs; format_1f avg_fat]]%string in
     update_values spreadsheet_id "Summary!A2:E4" summary_values).

(** ** get_sheet_data *)

(** [any(query.lower() in str(cell).lower() for cell in row)]. *)
Definition row_matches (query : string) (r : row) : bool :=
  existsb (fun cell => contains (lower query) (lower (str_of fmt cell))) r.

(** The filtering loop, appending to [filtered_values]. *)
Fixpoint filter_loop (query : string) (vals : list row) (filtered_values : list row)
  : list row :=
  match vals with
  | [] => filtered_values
  | r :: rest =>
      if row_matches query r
      then filter_loop query rest (filtered_values ++ [r])
      else filter_loop query rest filtered_values
  end.

(** [if query]: neither [None] nor the empty string. *)
Definition query_given (query : option string) : option string :=
  match query with
  | Some q => if String.eqb q "" then None else Some q
  | None => None
  end.

Definition get_sheet_data (spreadsheet_id : pyval) (range_name : string)
           (query : option string) : io (list row) :=
  log_and_reraise
    (result <- issue (ValuesGet spreadsheet_id range_name)
                     (values_get service spreadsheet_id range_name) ;;
     let vals := values_or_empty result in
     match query_given query with
     | Some q => ret (filter_loop q vals [])
     | None => ret vals
     end).

End Service.

End Sheets.

(* ===================================================================== *)
(** * maps.py: the remaining methods                                      *)
(* ===================================================================== *)

Module MapsDetails.
Import Py Maps.

Definition details_url : string :=
  "https://maps.googleapis.com/maps/api/place/details/json".

(** [v == s] for a string literal [s]. *)
Definition equals_text (v : pyval) (s : string) : bool :=
  match v with
  | JStr t => String.eqb t s
  | _ => false
  end.

Section Service.
Context {W : Type}.
Variable client : vendor W.
Variable api_key : string.

(** ** get_location_details *)

Definition get_location_details (place_id : string) : io (W:=W) pyval :=
  try_except
    (let params := [("place_id", JStr place_id); ("key", JStr api_key)] in
     response <- call_requests_get client details_url params None ;;
     data <- lift (json response) ;;
     status <- lift (getitem data "status") ;;
     if equals_text status "OK"
     then lift (getitem data "result")
     else ret (JDict []))
    (fun e => ret (JDict [])).

End Service.
End MapsDetails.

Module Places.
Import Py MapsDetails.

(** The calls of [self.places_service] and of [self.client] that the
    three remaining methods make. *)
Inductive call : Type :=
| NearbySearch (location : string) (radius : Z) (type : string)
| Place (place_id : string)
| PlacesQuery (query : string) (location : pyval) (radius : Z).

Record vendor (W : Type) : Type := mkVendor {
  nearby_search : string -> Z -> string -> W -> result pyval * W;
  place : string -> W -> result pyval * W;
  places : string -> pyval -> Z -> W -> result pyval * W
}.

Arguments nearby_search {W} v _ _ _ _.
Arguments place {W} v _ _.
Arguments places {W} v _ _ _ _.






Section Service.
Context {W : Type}.
Variable client : vendor W.
Variable fmt : pyval -> string.

Definition state : Type := (W * list call)%type.
Definition io (A : Type) : Type := M state A.

Definition issue {A} (c : call) (f : W -> result A * W) : io A :=
  fun s =>
    let (r, w') := f (fst s) in
    (r, (w', snd s ++ [c])).



(** ** find_nearby_places *)


(** ** get_place_details *)

Definition get_place_details (place_id : string) : io pyval :=
  log_and_reraise (issue (Place place_id) (place client place_id)).

(** ** search_places *)

Definition search_places (query : string) (location : pyval) (radius : Z) : io pyval :=
  log_and_reraise
    (issue (PlacesQuery query location radius) (places client query location radius)).

End Service.
End Places.

(* ===================================================================== *)
(** * Vocabulary of the properties                                        *)
(* ===================================================================== *)

Module Outcome.
Import Py.

(** The three parts of what a run leaves behind. *)
Definition value {St A} (x : result A * St) : result A := fst x.
Definition world_after {W C A} (x : result A * (W * list C)) : W := fst (snd x).
Definition log_after {W C A} (x : result A * (W * list C)) : list C := snd (snd x).


End Outcome.

Module Text.
Import Py.

Definition newline : ascii := "010"%char.






(** A string of decimal digits with no sign and nothing else: the plain
    non-negative integers. *)
Definition plain_integer (s : string) : Prop :=
  s <> "" /\ all_chars ascii_digit s = true.

End Text.

Module MapsVocabulary.
Import Py Maps Text Outcome.







(** What is left of a nearby search once the HTTP answer [r] is in. *)
Definition places_of_response (r : response) : list pyval :=
  match
    (_ <~ raise_for_status r ;;
     payload <~ json r ;;
     results <~ dict_get payload "results" (JList []) ;;
     items <~ iterate results ;;
     collect place_summary items)
  with
  | Return places => places
  | Raise _ => []
  end.

(** What [geocode_address] makes of the vendor's answer. *)
Definition coordinates_of (address : string) (answer : pyval) : result (pyval * pyval) :=
  if negb (truthy answer)
  then Raise (mkExn ValueError ("No geocoding result for address: " ++ address))
  else
    first <~ getitem0 answer ;;
    geometry <~ getitem first "geometry" ;;
    location <~ getitem geometry "location" ;;
    lat <~ getitem location "lat" ;;
    lng <~ getitem location "lng" ;;
    Return (lat, lng).

End MapsVocabulary.

Module SheetsVocabulary.
Import Py Sheets Text Outcome.


(** The sheet a range in A1 notation names: what stands before "!". *)
Fixpoint sheet_of_range (range : string) : string :=
  match range with
  | "" => ""
  | String c rest => if Ascii.eqb c "!"%char then "" else String c (sheet_of_range rest)
  end.

(** The titles of the sheets a creation body asks for. *)
Definition sheet_title (sheet : pyval) : result pyval :=
  props <~ getitem sheet "properties" ;;
  getitem props "title".

Definition sheet_grid (sheet : pyval) : result (pyval * pyval) :=
  props <~ getitem sheet "properties" ;;
  grid <~ getitem props "gridProperties" ;;
  rows <~ getitem grid "rowCount" ;;
  cols <~ getitem grid "columnCount" ;;
  Return (rows, cols).

Definition body_sheets (body : pyval) : result (list pyval) :=
  sheets <~ getitem body "sheets" ;;
  iterate sheets.

(** The titles of the sheets create_workout_tracker asks for. *)
Definition tracker_sheet_titles (title : string) : result (list pyval) :=
  sheets <~ body_sheets (tracker_body title) ;;
  collect sheet_title sheets.

(** The title of the sheet a batch request adds. *)
Definition added_sheet_title (request : pyval) : result pyval :=
  add <~ getitem request "addSheet" ;;
  sheet_title add.

Definition no_len : exn := mkExn TypeError "object of type 'coroutine' has no len()".

Definition is_values_get (c : call) : bool :=
  match c with ValuesGet _ _ => true | _ => false end.

Definition writes_range (range : string) (c : call) : bool :=
  match c with
  | ValuesUpdate _ r _ _ => String.eqb r range
  | _ => false
  end.

End SheetsVocabulary.

(* ===================================================================== *)
(** * Concrete services used to run the methods                           *)
(* ===================================================================== *)

Module Fixtures.
Import Py.

(** [str] on the scalars.  The runs below format no container; one would
    show as its type name. *)
Definition show (v : pyval) : string :=
  match v with
  | JNull => "None"
  | JBool true => "True"
  | JBool false => "False"
  | JInt z => decZ z
  | JFloat r => r
  | JStr s => s
  | _ => ("<" ++ type_name v ++ ">")%string
  end.

Definition outage : exn := mkExn ApiError "service unavailable".

(** A maps vendor that is down: every call raises. *)
Definition maps_down : Maps.vendor unit :=
  Maps.mkVendor unit
    (fun _ _ _ _ w => (Raise outage, w))
    (fun _ _ _ w => (Raise outage, w))
    (fun _ w => (Raise outage, w))
    (fun _ _ _ w => (Raise (mkExn RequestException "connection refused"), w)).

Definition gym : pyval :=
  JDict [("name", JStr "Iron Works"); ("vicinity", JStr "1 Main St");
         ("rating", JFloat "4.5"); ("place_id", JStr "p1");
         ("geometry", JDict [("location", JDict [("lat", JFloat "40.7");
                                                ("lng", JFloat "-74.0")])])].

Definition geocoded : pyval :=
  JList [JDict [("geometry", JDict [("location", JDict [("lat", JFloat "40.7");
                                                       ("lng", JFloat "-74.0")])])]].

Definition leg (dist dur : string) (instructions : list string) : pyval :=
  JDict [("distance", JDict [("text", JStr dist)]);
         ("duration", JDict [("text", JStr dur)]);
         ("steps", JList (map (fun i => JDict [("html_instructions", JStr i)])
                              instructions))].

Definition route (dist dur : string) (instructions : list string) : pyval :=
  JDict [("legs", JList [leg dist dur instructions])].

Definition two_routes : list pyval :=
  [route "5 km" "10 mins" ["Head north"; "Turn left"];
   route "6 km" "12 mins" ["Head south"]].


Definition home : pyval := JDict [("lat", JFloat "40.7"); ("lng", JFloat "-74.0")].

(** A maps vendor that answers: two routes, one geocoding result, one gym. *)
Definition maps_up : Maps.vendor unit :=
  Maps.mkVendor unit
    (fun _ _ _ _ w => (Return (JList two_routes), w))
    (fun _ _ _ w => (Return (JDict [("status", JStr "OK")]), w))
    (fun _ w => (Return geocoded, w))
    (fun _ _ _ w => (Return (Maps.mkResponse 200 (Some (JDict [("results", JList [gym])]))),
                     w)).


(** A spreadsheet kept in memory: the titles of its sheets and the ranges
    written so far, latest first. *)
Record book : Type := mkBook {
  sheets : list string;
  written : list (string * list Sheets.row)
}.

Definition added_titles (requests : list pyval) : list string :=
  flat_map
    (fun request =>
       match getitem request "addSheet" with
       | Return add =>
           match SheetsVocabulary.sheet_title add with
           | Return (JStr t) => [t]
           | _ => []
           end
       | Raise _ => []
       end)
    requests.

(** A sheets vendor over a [book]; [stored] is what any range reads. *)
Definition sheets_up (stored : option (list Sheets.row)) : Sheets.vendor book :=
  Sheets.mkVendor book
    (fun body w => (Return (JDict [("spreadsheetId", JStr "sheet-1")]), w))
    (fun sid w => (Return (JDict [("spreadsheetId", sid)]), w))
    (fun sid range _ vals w =>
       (Return (JDict [("updatedRange", JStr range)]),
        mkBook (sheets w) ((range, vals) :: written w)))
    (fun sid range w => (Return (Sheets.mkValueRange stored), w))
    (fun sid range _ _ vals w =>
       (Return (JDict [("updates", JDict [])]),
        mkBook (sheets w) ((range, vals) :: written w)))
    (fun sid requests w =>
       (Return (JDict [("replies", JList [])]),
        mkBook (sheets w ++ added_titles requests) (written w))).

Definition tracker : book := mkBook ["Workouts"; "Nutrition"] [].

Definition history : list Sheets.row :=
  [Sheets.texts ["2024-01-01"; "Run"; "30"; "300"; "easy"; "20"];
   Sheets.texts ["2024-01-02"; "Swim"; "12.5"; "n/a"; ""; "8"]].

(** The book after the summary sheet was added and its headers written. *)
Definition summarised : book :=
  mkBook ["Workouts"; "Nutrition"; "Summary"]
         [("Summary!A1:E4", Sheets.summary_headers)].

(** The book after a tracker's two header rows were written. *)
Definition headed : book :=
  mkBook ["Workouts"; "Nutrition"]
         [("Nutrition!A1:G1", Sheets.nutrition_headers);
          ("Workouts!A1:E1", Sheets.workout_headers)].

End Fixtures.

(* ===================================================================== *)
(** * Vocabulary and concrete services for the remaining methods          *)
(* ===================================================================== *)

Module PlacesVocabulary.
Import Py Places.





End PlacesVocabulary.

Module SummaryVocabulary.
Import Py Sheets.

Definition is_dict (v : pyval) : bool :=
  match v with JDict _ => true | _ => false end.




End SummaryVocabulary.

Module MoreFixtures.
Import Py.

(** A places vendor that is down. *)
Definition places_down : Places.vendor unit :=
  Places.mkVendor unit
    (fun _ _ _ w => (Raise Fixtures.outage, w))
    (fun _ w => (Raise Fixtures.outage, w))
    (fun _ _ _ w => (Raise Fixtures.outage, w)).





(** A maps vendor whose HTTP answers carry the status 500 and a details
    payload. *)
Definition maps_details : Maps.vendor unit :=
  Maps.mkVendor unit
    (fun _ _ _ _ w => (Raise Fixtures.outage, w))
    (fun _ _ _ w => (Raise Fixtures.outage, w))
    (fun _ w => (Raise Fixtures.outage, w))
    (fun _ _ _ w =>
       (Return (Maps.mkResponse 500 (Some (JDict [("status", JStr "OK");
                                                  ("result", Fixtures.gym)]))), w)).

(** A maps vendor whose search answers with one place and one number. *)
Definition maps_mixed : Maps.vendor unit :=
  Maps.mkVendor unit
    (fun _ _ _ _ w => (Return (JList [Fixtures.route "5 km" "10 mins" ["Go"]; JDict []]), w))
    (fun _ _ _ w => (Raise Fixtures.outage, w))
    (fun _ w => (Return Fixtures.geocoded, w))
    (fun _ _ _ w =>
       (Return (Maps.mkResponse 200 (Some (JDict [("results",
                                                   JList [Fixtures.gym; JInt 7])]))), w)).

(** A maps vendor whose search answers with two bare results. *)
Definition maps_trails : Maps.vendor unit :=
  Maps.mkVendor unit
    (fun _ _ _ _ w => (Raise Fixtures.outage, w))
    (fun _ _ _ w => (Raise Fixtures.outage, w))
    (fun _ w => (Raise Fixtures.outage, w))
    (fun _ _ _ w =>
       (Return (Maps.mkResponse 200
                  (Some (JDict [("results", JList [JDict [("name", JStr "Loop")];
                                                   JDict [("vicinity", JStr "Park")]])]))),
        w)).

(** A sheets vendor that creates spreadsheets and refuses every write. *)
Definition sheets_read_only : Sheets.vendor Fixtures.book :=
  Sheets.mkVendor Fixtures.book
    (fun body w => (Return (JDict [("spreadsheetId", JStr "sheet-1")]), w))
    (fun sid w => (Return (JDict [("spreadsheetId", sid)]), w))
    (fun sid range _ vals w => (Raise Fixtures.outage, w))
    (fun sid range w => (Return (Sheets.mkValueRange None), w))
    (fun sid range _ _ vals w => (Raise Fixtures.outage, w))
    (fun sid requests w => (Raise Fixtures.outage, w)).

End MoreFixtures.

(* ===================================================================== *)
(** * Properties of text                                                  *)
(* ===================================================================== *)

Module TextFacts.
Import Py Text.










(** ** Containment and case *)








End TextFacts.

(* ===================================================================== *)
(** * Properties of the effect layer                                      *)
(* ===================================================================== *)

Module PyFacts.
Import Py.

Lemma log_and_reraise_id {St A} (m : M St A) (s : St) :
  log_and_reraise m s = m s.
Proof.
  unfold log_and_reraise, try_except, raise.
  destruct (m s) as [[a | e] s']; reflexivity.
Qed.

Lemma bind_lift {St A B} (r : result A) (k : A -> M St B) (s : St) :
  bind (lift r) k s = match r with
                      | Return a => k a s
                      | Raise e => (Raise e, s)
                      end.
Proof. unfold bind, lift. destruct r; reflexivity. Qed.

End PyFacts.

(* ===================================================================== *)
(** * maps.py: properties                                                 *)
(* ===================================================================== *)

Module MapsTheory.
Import Py Maps Outcome Text PyFacts TextFacts MapsVocabulary.

Section Service.
Context {W : Type}.
Variable client : vendor W.
Variable api_key : string.
Variable fmt : pyval -> string.

Lemma maps_issue_runs {A} (c : call) (f : W -> result A * W) (w : W) (log : list call) :
  issue c f (w, log) = (fst (f w), (snd (f w), log ++ [c])).
Proof. unfold issue. simpl. destruct (f w); reflexivity. Qed.

Lemma find_places_nearby_runs (lat lng : pyval) (tf : option (list string)) (radius : Z)
      (w : W) (log : list call) :
  let request := HttpGet nearbysearch_url (nearby_params api_key fmt lat lng radius)
                         (Some 10%Z) in
  let answer := requests_get client nearbysearch_url
                             (nearby_params api_key fmt lat lng radius) (Some 10%Z) w in
  _find_places_nearby client api_key fmt lat lng tf radius (w, log)
  = (Return (match fst answer with
             | Return r => places_of_response r
             | Raise _ => []
             end),
     (snd answer, log ++ [request])).
Proof.
  cbv zeta. unfold _find_places_nearby, try_except, call_requests_get, bind at 1.
  rewrite maps_issue_runs. simpl fst. simpl snd.
  destruct (requests_get client nearbysearch_url _ (Some 10%Z) w) as [[r | e] w'];
    simpl; [| reflexivity].
  unfold places_of_response, bind, lift, ret, rbind.
  destruct (raise_for_status r) as [[] | e]; [| reflexivity].
  destruct (json r) as [payload | e]; [| reflexivity].
  destruct (dict_get payload "results" (JList [])) as [results | e]; [| reflexivity].
  destruct (iterate results) as [items | e]; [| reflexivity].
  destruct (collect place_summary items) as [places | e]; reflexivity.
Qed.

Lemma geocode_address_runs (address : string) (w : W) (log : list call) :
  geocode_address client address (w, log)
  = (match fst (geocode client address w) with
     | Return answer => coordinates_of address answer
     | Raise e => Raise e
     end,
     (snd (geocode client address w), log ++ [Geocode address])).
Proof.
  unfold geocode_address. rewrite log_and_reraise_id.
  unfold call_geocode, bind at 1. rewrite maps_issue_runs. simpl fst. simpl snd.
  destruct (geocode client address w) as [[answer | e] w']; simpl; [| reflexivity].
  unfold coordinates_of.
  destruct (negb (truthy answer)); [reflexivity |].
  unfold bind, lift, ret, rbind.
  destruct (getitem0 answer) as [first | e]; [| reflexivity].
  destruct (getitem first "geometry") as [geometry | e]; [| reflexivity].
  destruct (getitem geometry "location") as [location | e]; [| reflexivity].
  destruct (getitem location "lat") as [lat | e]; [| reflexivity].
  destruct (getitem location "lng") as [lng | e]; reflexivity.
Qed.


(** The search on a string input, in terms of the answer to geocoding. *)
Lemma find_nearby_of_address (address : string) (w : W) (log : list call) :
  find_nearby_workout_locations client api_key fmt (JStr address) (w, log)
  = match geocode_address client address (w, log) with
    | (Return coords, s1) =>
        _find_places_nearby client api_key fmt (fst coords) (snd coords)
                            (Some ["gym"; "fitness"]) 50000 s1
    | (Raise _, s1) => (Return [], s1)
    end.
Proof.
  unfold find_nearby_workout_locations, try_except, bind.
  destruct (geocode_address client address (w, log)) as [[coords | e] s1];
    [| reflexivity].
  destruct s1 as [w1 log1]. rewrite find_places_nearby_runs. reflexivity.
Qed.

(** The search on a mapping input. *)
Lemma find_nearby_of_mapping (kvs : list (string * pyval)) (s : state) :
  find_nearby_workout_locations client api_key fmt (JDict kvs) s
  = let lat := match lookup "lat" kvs with Some v => v | None => JNull end in
    let lng := match lookup "lng" kvs with Some v => v | None => JNull end in
    if is_none lat || is_none lng then (Return [], s)
    else _find_places_nearby client api_key fmt lat lng (Some ["gym"; "fitness"]) 50000 s.
Proof.
  cbv zeta. unfold find_nearby_workout_locations, try_except.
  destruct (is_none _ || is_none _); [reflexivity |].
  destruct s as [w log]. rewrite find_places_nearby_runs. reflexivity.
Qed.

(** C3: whatever type filter the caller passes, the nearby-places helper
    issues the same single HTTP request, whose "type" parameter is "gym",
    and gives the same result and final state. *)
Theorem find_places_nearby_ignores_type_filter
        (lat lng : pyval) (radius : Z) (filter1 filter2 : option (list string))
        (w : W) (log : list call) :
  _find_places_nearby client api_key fmt lat lng filter1 radius (w, log)
  = _find_places_nearby client api_key fmt lat lng filter2 radius (w, log)
  /\ exists params,
       log_after (_find_places_nearby client api_key fmt lat lng filter1 radius (w, log))
       = log ++ [HttpGet nearbysearch_url params (Some 10%Z)]
       /\ log_after (_find_places_nearby client api_key fmt lat lng filter2 radius (w, log))
          = log ++ [HttpGet nearbysearch_url params (Some 10%Z)]
       /\ lookup "type" params = Some (JStr "gym").
Proof.
  split.
  - rewrite !find_places_nearby_runs. reflexivity.
  - exists (nearby_params api_key fmt lat lng radius).
    rewrite !find_places_nearby_runs. repeat split.
Qed.

(** find_running_trails returns a list whatever happens inside it. *)
Lemma find_running_trails_returns (location : pyval) (radius : Z) (s : state) :
  exists trails s1,
    find_running_trails client api_key fmt location radius s = (Return trails, s1).
Proof.
  unfold find_running_trails, try_except.
  match goal with |- context [match ?m s with _ => _ end] =>
    destruct (m s) as [[trails | e] s1] end;
    eexists; eexists; reflexivity.
Qed.

(** C2: when the vendor's distance-matrix call raises, get_distance_matrix
    raises the same exception; when the HTTP request of find_running_trails
    raises, find_running_trails returns the empty list, and it returns a
    list on every input and in every state; so the first method hands the
    failure to its caller and returns nothing, while the second returns
    normally. *)
Theorem distance_matrix_raises_and_trails_swallow
        (origins destinations : list string) (mode : string)
        (location : pyval) (radius : Z) (w : W) (log : list call)
        (e : exn) (w1 : W)
        (Hmatrix : distance_matrix client origins destinations mode w = (Raise e, w1))
        (Hget : forall params, exists e' w',
            requests_get client nearbysearch_url params None w = (Raise e', w')) :
  value (get_distance_matrix client origins destinations mode (w, log)) = Raise e
  /\ value (find_running_trails client api_key fmt location radius (w, log)) = Return []
  /\ (forall answer,
        value (get_distance_matrix client origins destinations mode (w, log))
        <> Return answer)
  /\ (forall location' radius' s, exists trails s1,
        find_running_trails client api_key fmt location' radius' s
        = (Return trails, s1)).
Proof.
  assert (Hm : value (get_distance_matrix client origins destinations mode (w, log))
               = Raise e).
  { unfold get_distance_matrix. rewrite log_and_reraise_id.
    unfold call_distance_matrix. rewrite maps_issue_runs, Hmatrix. reflexivity. }
  assert (Ht : value (find_running_trails client api_key fmt location radius (w, log))
               = Return []).
  { unfold find_running_trails, try_except, bind, lift, ret.
    destruct (getitem location "lat") as [lat | e1]; [| reflexivity].
    destruct (getitem location "lng") as [lng | e1]; [| reflexivity].
    unfold call_requests_get. rewrite maps_issue_runs.
    match goal with |- context [requests_get client _ ?p None w] =>
      destruct (Hget p) as (e' & w' & Hp); rewrite Hp end.
    reflexivity. }
  rewrite Hm, Ht. repeat split; [discriminate |].
  intros location' radius' s. apply find_running_trails_returns.
Qed.



(** ** The report of get_directions *)




Lemma collect_length {A B} (f : A -> result B) (l : list A) (out : list B) :
  collect f l = Return out -> List.length out = List.length l.
Proof.
  revert out. induction l as [| x l IH]; intros out; simpl.
  - intros H. inversion H. reflexivity.
  - destruct (f x) as [y | e]; [| discriminate].
    destruct (collect f l) as [ys | e]; [| discriminate].
    intros H. inversion H. simpl. rewrite (IH ys eq_refl). reflexivity.
Qed.








End Service.


(** ** The theorems at work on concrete vendors *)

Lemma distance_matrix_raises_and_trails_swallow_witness :
  value (get_distance_matrix Fixtures.maps_down ["A"] ["B"] "driving" (tt, []))
  = Raise Fixtures.outage
  /\ value (find_running_trails Fixtures.maps_down "key" Fixtures.show
                                (JDict [("lat", JInt 0); ("lng", JInt 0)]) 5000 (tt, []))
     = Return []
  /\ (forall answer,
        value (get_distance_matrix Fixtures.maps_down ["A"] ["B"] "driving" (tt, []))
        <> Return answer)
  /\ (forall location' radius' s, exists trails s1,
        find_running_trails Fixtures.maps_down "key" Fixtures.show location' radius' s
        = (Return trails, s1)).
Proof.
  apply (distance_matrix_raises_and_trails_swallow
           Fixtures.maps_down "key" Fixtures.show ["A"] ["B"] "driving"
           (JDict [("lat", JInt 0); ("lng", JInt 0)]) 5000 tt [] Fixtures.outage tt).
  - reflexivity.
  - intros params. exists (mkExn RequestException "connection refused"), tt.
    reflexivity.
Defined.




(** The report of that run, in full. *)
Example get_directions_report :
  value (get_directions Fixtures.maps_up Fixtures.show "A" "B" (tt, []))
  = Return (join (String newline "")
                 ["Route 1:"; "Distance: 5 km"; "Duration: 10 mins"; "Steps:";
                  "- Head north"; "- Turn left"; "";
                  "Route 2:"; "Distance: 6 km"; "Duration: 12 mins"; "Steps:";
                  "- Head south"; ""]).
Proof. reflexivity. Qed.

End MapsTheory.

(* ===================================================================== *)
(** * sheets.py: properties                                               *)
(* ===================================================================== *)

Module SheetsTheory.
Import Py Sheets Outcome Text PyFacts TextFacts SheetsVocabulary.

Section Service.
Context {W : Type}.
Variable service : vendor W.
Variable fmt : pyval -> string.

Lemma sheets_issue_runs {A} (c : call) (f : W -> result A * W) (w : W) (log : list call) :
  issue c f (w, log) = (fst (f w), (snd (f w), log ++ [c])).
Proof. unfold issue. simpl. destruct (f w); reflexivity. Qed.

Lemma update_values_runs (sid : pyval) (range : string) (vals : list row)
      (w : W) (log : list call) :
  update_values service sid range vals (w, log)
  = (fst (values_update service sid range "RAW" vals w),
     (snd (values_update service sid range "RAW" vals w),
      log ++ [ValuesUpdate sid range "RAW" vals])).
Proof. unfold update_values. rewrite log_and_reraise_id. apply sheets_issue_runs. Qed.

Lemma batch_update_runs (sid : pyval) (requests : list pyval) (w : W) (log : list call) :
  batch_update service sid requests (w, log)
  = (fst (batchUpdate service sid requests w),
     (snd (batchUpdate service sid requests w), log ++ [BatchUpdate sid requests])).
Proof. unfold batch_update. rewrite log_and_reraise_id. apply sheets_issue_runs. Qed.

Lemma append_values_runs (sid : pyval) (range : string) (vals : list row)
      (w : W) (log : list call) :
  append_values service sid range vals (w, log)
  = (fst (values_append service sid range "USER_ENTERED" "INSERT_ROWS" vals w),
     (snd (values_append service sid range "USER_ENTERED" "INSERT_ROWS" vals w),
      log ++ [ValuesAppend sid range "USER_ENTERED" "INSERT_ROWS" vals])).
Proof. unfold append_values. rewrite log_and_reraise_id. apply sheets_issue_runs. Qed.

(** A read of [range] followed by a pure reshaping of the rows. *)
Lemma read_runs {A} (sid : pyval) (range : string) (k : list row -> A)
      (w : W) (log : list call) :
  log_and_reraise
    (result <- issue (ValuesGet sid range) (values_get service sid range) ;;
     ret (k (values_or_empty result))) (w, log)
  = (match fst (values_get service sid range w) with
     | Return vr => Return (k (values_or_empty vr))
     | Raise e => Raise e
     end,
     (snd (values_get service sid range w), log ++ [ValuesGet sid range])).
Proof.
  rewrite log_and_reraise_id. unfold bind. rewrite sheets_issue_runs.
  destruct (values_get service sid range w) as [[vr | e] w1]; reflexivity.
Qed.

(** ** create_workout_summary *)

(** The run of create_workout_summary: the two writes, then the failing
    [len]. *)
Lemma create_workout_summary_runs (sid : pyval) (w : W) (log : list call) :
  let first := batchUpdate service sid [summary_request] w in
  let second := values_update service sid "Summary!A1:E4" "RAW" summary_headers
                              (snd first) in
  create_workout_summary service sid (w, log)
  = match fst first with
    | Raise e => (Raise e, (snd first, log ++ [BatchUpdate sid [summary_request]]))
    | Return _ =>
        (Raise (match fst second with
                | Raise e => e
                | Return _ => no_len
                end),
         (snd second,
          log ++ [BatchUpdate sid [summary_request];
                  ValuesUpdate sid "Summary!A1:E4" "RAW" summary_headers]))
    end.
Proof.
  cbv zeta. unfold create_workout_summary. rewrite log_and_reraise_id.
  unfold bind at 1. rewrite batch_update_runs.
  destruct (batchUpdate service sid [summary_request] w) as [[r1 | e1] w1];
    simpl fst; simpl snd; cbv iota; [| reflexivity].
  unfold bind at 1. rewrite update_values_runs.
  destruct (values_update service sid "Summary!A1:E4" "RAW" summary_headers w1)
    as [[r2 | e2] w2]; simpl fst; simpl snd; cbv iota.
  - rewrite <- app_assoc. reflexivity.
  - rewrite <- app_assoc. reflexivity.
Qed.

(** C10: create_workout_summary first adds the "Summary" sheet and then
    writes the header block to Summary!A1:E4; when both calls succeed it
    raises the TypeError of [len] on the coroutine object, with the world
    left as the two calls made it; it never returns normally and it never
    reads a range. *)
Theorem create_workout_summary_not_atomic
        (sid : pyval) (w w1 w2 : W) (log : list call) (r1 r2 : pyval)
        (Hadd : batchUpdate service sid [summary_request] w = (Return r1, w1))
        (Hhead : values_update service sid "Summary!A1:E4" "RAW" summary_headers w1
                 = (Return r2, w2)) :
  create_workout_summary service sid (w, log)
  = (Raise no_len,
     (w2, log ++ [BatchUpdate sid [summary_request];
                  ValuesUpdate sid "Summary!A1:E4" "RAW" summary_headers]))
  /\ added_sheet_title summary_request = Return (JStr "Summary")
  /\ filter is_values_get (log_after (create_workout_summary service sid (w, log)))
     = filter is_values_get log
  /\ (forall (w' : W) (log' : list call) answer s,
        create_workout_summary service sid (w', log') <> (Return answer, s)).
Proof.
  assert (Hrun : create_workout_summary service sid (w, log)
                 = (Raise no_len,
                    (w2, log ++ [BatchUpdate sid [summary_request];
                                 ValuesUpdate sid "Summary!A1:E4" "RAW"
                                              summary_headers]))).
  { rewrite create_workout_summary_runs. cbv zeta. rewrite Hadd. simpl fst. simpl snd.
    rewrite Hhead. reflexivity. }
  repeat split.
  - exact Hrun.
  - rewrite Hrun. unfold log_after. simpl snd.
    rewrite filter_app. simpl. apply app_nil_r.
  - intros w' log' answer s. rewrite create_workout_summary_runs. cbv zeta.
    destruct (fst (batchUpdate service sid [summary_request] w')); discriminate.
Qed.

(** ** create_workout_tracker *)

(** C4: when the creation call answers with a spreadsheet id and the two
    header writes succeed, create_workout_tracker has issued exactly the
    creation and the two writes: the creation asks for exactly two sheets,
    "Workouts" and "Nutrition", each of 1000 rows by 10 columns, and the
    writes put the two header rows into Workouts!A1:E1 and
    Nutrition!A1:G1. *)
Theorem create_workout_tracker_sheets_and_headers
        (title : string) (w w1 w2 w3 : W) (log : list call)
        (created sid r1 r2 : pyval)
        (Hcreate : create service (tracker_body title) w = (Return created, w1))
        (Hid : getitem created "spreadsheetId" = Return sid)
        (Hworkouts : values_update service sid "Workouts!A1:E1" "RAW" workout_headers w1
                     = (Return r1, w2))
        (Hnutrition : values_update service sid "Nutrition!A1:G1" "RAW"
                                    nutrition_headers w2
                      = (Return r2, w3)) :
  (exists body,
      create_workout_tracker service title (w, log)
      = (Return created,
         (w3, log ++ [Create body;
                      ValuesUpdate sid "Workouts!A1:E1" "RAW"
                        [texts ["Date"; "Workout Type"; "Duration"; "Calories Burned";
                                "Notes"]];
                      ValuesUpdate sid "Nutrition!A1:G1" "RAW"
                        [texts ["Date"; "Meal"; "Calories"; "Protein (g)"; "Carbs (g)";
                                "Fat (g)"; "Notes"]]]))
      /\ exists first second,
          body_sheets body = Return [first; second]
          /\ sheet_title first = Return (JStr "Workouts")
          /\ sheet_title second = Return (JStr "Nutrition")
          /\ sheet_grid first = Return (JInt 1000, JInt 10)
          /\ sheet_grid second = Return (JInt 1000, JInt 10)).
Proof.
  exists (tracker_body title). split.
  - unfold create_workout_tracker. rewrite log_and_reraise_id.
    unfold bind at 1. rewrite sheets_issue_runs, Hcreate. simpl fst. simpl snd.
    cbv beta iota. rewrite bind_lift, Hid. cbv beta iota.
    unfold bind at 1. rewrite update_values_runs, Hworkouts. simpl fst. simpl snd.
    cbv beta iota. rewrite bind_lift. cbv beta iota.
    unfold bind at 1. rewrite update_values_runs, Hnutrition. simpl fst. simpl snd.
    cbv beta iota. unfold ret. repeat rewrite <- app_assoc. reflexivity.
  - eexists. eexists. repeat split.
Qed.

(** ** The history ranges *)

(** C9: get_workout_history reads exactly the range "Workout History!A:Z"
    and get_nutrition_history exactly "Nutrition History!A:Z"; the sheets
    these name are neither of the two sheets, "Workouts" and "Nutrition",
    that create_workout_tracker asks for and that the add-entry methods
    append to. *)
Theorem history_ranges_name_other_sheets
        (sid : pyval) (w : W) (log : list call) (title : string)
        (date kind duration calories protein carbs fat notes : string) :
  log_after (get_workout_history service sid (w, log))
  = log ++ [ValuesGet sid "Workout History!A:Z"]
  /\ log_after (get_nutrition_history service sid (w, log))
     = log ++ [ValuesGet sid "Nutrition History!A:Z"]
  /\ tracker_sheet_titles title = Return [JStr "Workouts"; JStr "Nutrition"]
  /\ (exists vals,
        log_after (add_workout_entry service sid date kind duration calories notes
                                     (w, log))
        = log ++ [ValuesAppend sid "Workouts!A:E" "USER_ENTERED" "INSERT_ROWS" vals])
  /\ (exists vals,
        log_after (add_nutrition_entry service sid date kind calories protein carbs fat
                                       notes (w, log))
        = log ++ [ValuesAppend sid "Nutrition!A:G" "USER_ENTERED" "INSERT_ROWS" vals])
  /\ sheet_of_range "Workouts!A:E" = "Workouts"
  /\ sheet_of_range "Nutrition!A:G" = "Nutrition"
  /\ ~ In (sheet_of_range "Workout History!A:Z") ["Workouts"; "Nutrition"]
  /\ ~ In (sheet_of_range "Nutrition History!A:Z") ["Workouts"; "Nutrition"].
Proof.
  repeat split.
  - unfold get_workout_history.
    rewrite (read_runs sid "Workout History!A:Z" (fun rows => rows)). reflexivity.
  - unfold get_nutrition_history.
    rewrite (read_runs sid "Nutrition History!A:Z" (fun rows => rows)). reflexivity.
  - eexists. unfold add_workout_entry. rewrite log_and_reraise_id.
    cbv zeta. rewrite append_values_runs. reflexivity.
  - eexists. unfold add_nutrition_entry. rewrite log_and_reraise_id.
    cbv zeta. rewrite append_values_runs. reflexivity.
  - simpl. intros [H | [H | []]]; discriminate.
  - simpl. intros [H | [H | []]]; discriminate.
Qed.

(** ** get_sheet_data *)




End Service.


(** C1 at a concrete spreadsheet whose history ranges hold rows: the
    summary run adds the sheet, writes the headers and then raises on
    [len] of the coroutine object; no totals and no averages are written to
    Summary!A2:E4 and no history range is read. *)
Theorem create_workout_summary_writes_no_totals :
  let run := create_workout_summary (Fixtures.sheets_up (Some Fixtures.history))
                                    (JStr "sheet-1") (Fixtures.tracker, []) in
  value run = Raise no_len
  /\ log_after run
     = [BatchUpdate (JStr "sheet-1") [summary_request];
        ValuesUpdate (JStr "sheet-1") "Summary!A1:E4" "RAW" summary_headers]
  /\ existsb (writes_range "Summary!A2:E4") (log_after run) = false
  /\ existsb is_values_get (log_after run) = false
  /\ Fixtures.sheets (world_after run) = ["Workouts"; "Nutrition"; "Summary"].
Proof. cbv zeta. repeat split. Qed.

(** ** What the summary would aggregate, had it the rows

    On a list of rows the aggregation takes a field when [isdigit] holds of
    it; the plain integers are among those, the superscript digits too, and
    on these [float] raises. *)

Lemma ascii_digits_are_digits (s : string) :
  all_chars ascii_digit s = true -> all_chars digit_char s = true.
Proof.
  induction s as [| c s IH]; simpl; intros H; [reflexivity |].
  apply andb_true_iff in H. destruct H as [Hc Hs].
  unfold digit_char at 1. rewrite Hc, (IH Hs). reflexivity.
Qed.

Lemma plain_integer_isdigit (s : string) : plain_integer s -> isdigit s = true.
Proof.
  intros [Hne Hall]. unfold isdigit.
  rewrite (ascii_digits_are_digits s Hall).
  destruct (String.eqb_spec s ""); [contradiction | reflexivity].
Qed.

Example field_totals_of_rows :
  field_total 2 (Rows (W:=Fixtures.book) Fixtures.history) = Return (0 + 30 # 1)%Q
  /\ field_total 3 (Rows (W:=Fixtures.book) Fixtures.history) = Return (0 + 300 # 1)%Q.
Proof. split; reflexivity. Qed.

Example field_total_of_superscript :
  field_total 0 (Rows (W:=Fixtures.book) [texts [String (ascii_of_nat 178) ""]])
  = Raise (mkExn ValueError
                 ("could not convert string to float: '"
                  ++ String (ascii_of_nat 178) "" ++ "'")).
Proof. reflexivity. Qed.

(** ** The theorems at work on a spreadsheet kept in memory *)

Lemma create_workout_summary_not_atomic_witness :
  create_workout_summary (Fixtures.sheets_up (Some Fixtures.history)) (JStr "sheet-1")
                         (Fixtures.tracker, [])
  = (Raise no_len,
     (Fixtures.summarised,
      [BatchUpdate (JStr "sheet-1") [summary_request];
       ValuesUpdate (JStr "sheet-1") "Summary!A1:E4" "RAW" summary_headers])).
Proof.
  apply (create_workout_summary_not_atomic
           (Fixtures.sheets_up (Some Fixtures.history)) (JStr "sheet-1")
           Fixtures.tracker
           (Fixtures.mkBook ["Workouts"; "Nutrition"; "Summary"] [])
           Fixtures.summarised []
           (JDict [("replies", JList [])])
           (JDict [("updatedRange", JStr "Summary!A1:E4")]));
    reflexivity.
Defined.

Lemma create_workout_tracker_sheets_and_headers_witness :
  exists body,
    create_workout_tracker (Fixtures.sheets_up None) "Plan" (Fixtures.tracker, [])
    = (Return (JDict [("spreadsheetId", JStr "sheet-1")]),
       (Fixtures.headed,
        [Create body;
         ValuesUpdate (JStr "sheet-1") "Workouts!A1:E1" "RAW"
           [texts ["Date"; "Workout Type"; "Duration"; "Calories Burned"; "Notes"]];
         ValuesUpdate (JStr "sheet-1") "Nutrition!A1:G1" "RAW"
           [texts ["Date"; "Meal"; "Calories"; "Protein (g)"; "Carbs (g)"; "Fat (g)";
                   "Notes"]]]))
    /\ exists first second,
        body_sheets body = Return [first; second]
        /\ sheet_title first = Return (JStr "Workouts")
        /\ sheet_title second = Return (JStr "Nutrition")
        /\ sheet_grid first = Return (JInt 1000, JInt 10)
        /\ sheet_grid second = Return (JInt 1000, JInt 10).
Proof.
  apply (create_workout_tracker_sheets_and_headers
           (Fixtures.sheets_up None) "Plan" Fixtures.tracker Fixtures.tracker
           (Fixtures.mkBook ["Workouts"; "Nutrition"]
                            [("Workouts!A1:E1", workout_headers)])
           Fixtures.headed []
           (JDict [("spreadsheetId", JStr "sheet-1")]) (JStr "sheet-1")
           (JDict [("updatedRange", JStr "Workouts!A1:E1")])
           (JDict [("updatedRange", JStr "Nutrition!A1:G1")]));
    reflexivity.
Defined.


(** The rows that run keeps: the one whose workout type reads "Run". *)
Example get_sheet_data_finds_run :
  value (get_sheet_data (Fixtures.sheets_up (Some Fixtures.history)) Fixtures.show
                        (JStr "sheet-1") "Workouts!A:F" (Some "RUN")
                        (Fixtures.tracker, []))
  = Return [texts ["2024-01-01"; "Run"; "30"; "300"; "easy"; "20"]].
Proof. reflexivity. Qed.

End SheetsTheory.

(* ===================================================================== *)
(** * maps.py: further properties                                         *)
(* ===================================================================== *)

Module MapsMore.
Import Py Maps MapsDetails Outcome Text PyFacts TextFacts MapsVocabulary MapsTheory.
Import SummaryVocabulary.

Lemma collect_raises {A B} (f : A -> result B) (l : list A) (x : A) (e : exn) :
  In x l -> f x = Raise e -> exists e', collect f l = Raise e'.
Proof.
  induction l as [| y l IH]; intros Hin Hx; [contradiction |].
  simpl. destruct Hin as [-> | Hin].
  - rewrite Hx. exists e. reflexivity.
  - destruct (f y) as [b | e1]; [| exists e1; reflexivity].
    destruct (IH Hin Hx) as [e' ->]. exists e'. reflexivity.
Qed.

Lemma collect_nth {A B} (f : A -> result B) (l : list A) (out : list B) (k : nat) (x : A) :
  collect f l = Return out -> nth_error l k = Some x ->
  exists y, nth_error out k = Some y /\ f x = Return y.
Proof.
  revert out k. induction l as [| a l IH]; intros out k Hc Hk.
  - destruct k; discriminate.
  - simpl in Hc. destruct (f a) as [b | e] eqn:Ha; [| discriminate].
    destruct (collect f l) as [bs | e]; [| discriminate].
    inversion Hc; subst out. destruct k as [| k]; simpl in *.
    + inversion Hk; subst. exists b. split; [reflexivity | exact Ha].
    + apply (IH bs k eq_refl Hk).
Qed.

Section Service.
Context {W : Type}.
Variable client : vendor W.
Variable api_key : string.
Variable fmt : pyval -> string.

(** The run of get_directions, whatever the vendor does. *)
Lemma get_directions_cases (origin destination : string) (w : W) (log : list call) :
  get_directions client fmt origin destination (w, log)
  = (Return
       (match fst (directions_service client origin destination "driving" true w) with
        | Raise e => ("Error getting directions: " ++ exn_msg e)%string
        | Return v =>
            if negb (truthy v) then "No directions found."%string
            else match (routes <~ iterate v ;; collect route_entry routes) with
                 | Return directions =>
                     join (String newline "") (format_routes fmt [] 1 directions)
                 | Raise e => ("Error getting directions: " ++ exn_msg e)%string
                 end
        end),
     (snd (directions_service client origin destination "driving" true w),
      log ++ [Directions origin destination "driving" true])).
Proof.
  unfold get_directions, try_except, call_directions, bind at 1.
  rewrite maps_issue_runs. simpl fst. simpl snd.
  destruct (directions_service client origin destination "driving" true w)
    as [[v | e] w1]; simpl fst; simpl snd; cbv beta iota; [| reflexivity].
  destruct (negb (truthy v)); [reflexivity |].
  unfold bind, lift, ret, rbind.
  destruct (iterate v) as [routes | e]; [| reflexivity].
  destruct (collect route_entry routes); reflexivity.
Qed.

(** X1: get_directions never raises: it issues one directions call, for
    driving with alternatives, and returns a string.  The string is the
    error message when the call raises, "No directions found." when the
    answer is empty, and again an error message, in place of the whole
    report, as soon as one of the routes lacks a part the report reads. *)
Theorem get_directions_never_raises (origin destination : string) (w : W)
        (log : list call) :
  let answer := directions_service client origin destination "driving" true w in
  (exists out,
      get_directions client fmt origin destination (w, log)
      = (Return out, (snd answer, log ++ [Directions origin destination "driving" true])))
  /\ (forall e, fst answer = Raise e ->
                value (get_directions client fmt origin destination (w, log))
                = Return ("Error getting directions: " ++ exn_msg e)%string)
  /\ (forall v, fst answer = Return v -> truthy v = false ->
                value (get_directions client fmt origin destination (w, log))
                = Return "No directions found."%string)
  /\ (forall routes r e0,
         fst answer = Return (JList routes) -> In r routes -> route_entry r = Raise e0 ->
         exists e,
           value (get_directions client fmt origin destination (w, log))
           = Return ("Error getting directions: " ++ exn_msg e)%string).
Proof.
  cbv zeta. rewrite get_directions_cases. unfold value. simpl fst.
  split; [eexists; reflexivity |].
  split; [intros e ->; reflexivity |].
  split.
  - intros v -> Hv. rewrite Hv. reflexivity.
  - intros routes r e0 -> Hin Hr.
    destruct routes as [| r0 routes]; [contradiction |].
    cbn [truthy negb iterate rbind].
    destruct (collect_raises route_entry (r0 :: routes) r e0 Hin Hr) as [e ->].
    exists e. reflexivity.
Qed.

(** X2: geocode_address issues one geocoding call.  It raises what the call
    raises, raises ValueError naming the address when the answer is empty,
    and otherwise returns the lat and lng of the first result only. *)
Theorem geocode_address_outcomes (address : string) (w : W) (log : list call) :
  let answer := geocode client address w in
  log_after (geocode_address client address (w, log)) = log ++ [Geocode address]
  /\ world_after (geocode_address client address (w, log)) = snd answer
  /\ (forall e, fst answer = Raise e ->
                value (geocode_address client address (w, log)) = Raise e)
  /\ (forall v, fst answer = Return v -> truthy v = false ->
                value (geocode_address client address (w, log))
                = Raise (mkExn ValueError
                               ("No geocoding result for address: " ++ address)))
  /\ (forall first others geometry location lat lng,
         fst answer = Return (JList (first :: others)) ->
         getitem first "geometry" = Return geometry ->
         getitem geometry "location" = Return location ->
         getitem location "lat" = Return lat ->
         getitem location "lng" = Return lng ->
         value (geocode_address client address (w, log)) = Return (lat, lng)).
Proof.
  cbv zeta. rewrite geocode_address_runs. unfold log_after, world_after, value.
  simpl fst. simpl snd.
  repeat split.
  - intros e ->. reflexivity.
  - intros v -> Hv. unfold coordinates_of. rewrite Hv. reflexivity.
  - intros first others geometry location lat lng -> Hg Hl Hlat Hlng.
    unfold coordinates_of. cbn [truthy negb getitem0 rbind].
    rewrite Hg. cbn [rbind]. rewrite Hl. cbn [rbind]. rewrite Hlat. cbn [rbind].
    rewrite Hlng. reflexivity.
Qed.

(** X3: searching by address is geocoding followed by the search on the
    mapping of the coordinates found, provided neither is None. *)
Theorem find_nearby_by_address_is_by_mapping
        (address : string) (lat lng : pyval) (w : W) (log : list call) (s1 : state)
        (Hgeo : geocode_address client address (w, log) = (Return (lat, lng), s1))
        (Hlat : is_none lat = false) (Hlng : is_none lng = false) :
  find_nearby_workout_locations client api_key fmt (JStr address) (w, log)
  = find_nearby_workout_locations client api_key fmt
                                  (JDict [("lat", lat); ("lng", lng)]) s1.
Proof.
  rewrite find_nearby_of_address, Hgeo, find_nearby_of_mapping.
  cbn [lookup String.eqb Ascii.eqb Bool.eqb fst snd]. cbv zeta.
  rewrite Hlat, Hlng. reflexivity.
Qed.

(** The run of get_location_details, whatever the vendor does. *)
Lemma get_location_details_cases (place_id : string) (w : W) (log : list call) :
  get_location_details client api_key place_id (w, log)
  = (Return
       (match fst (requests_get client details_url
                     [("place_id", JStr place_id); ("key", JStr api_key)] None w) with
        | Raise _ => JDict []
        | Return r =>
            match (data <~ json r ;;
                   status <~ getitem data "status" ;;
                   if equals_text status "OK" then getitem data "result"
                   else Return (JDict [])) with
            | Return v => v
            | Raise _ => JDict []
            end
        end),
     (snd (requests_get client details_url
             [("place_id", JStr place_id); ("key", JStr api_key)] None w),
      log ++ [HttpGet details_url
                      [("place_id", JStr place_id); ("key", JStr api_key)] None])).
Proof.
  unfold get_location_details, try_except, call_requests_get, bind at 1.
  rewrite maps_issue_runs. simpl fst. simpl snd.
  destruct (requests_get client details_url _ None w) as [[r | e] w1];
    simpl fst; simpl snd; cbv beta iota; [| reflexivity].
  unfold bind, lift, ret, rbind.
  destruct (json r) as [data | e]; [| reflexivity].
  destruct (getitem data "status") as [status | e]; [| reflexivity].
  destruct (equals_text status "OK"); [| reflexivity].
  destruct (getitem data "result"); reflexivity.
Qed.

(** X4: get_location_details never raises and never looks at the HTTP status
    code: after its one GET it returns the payload's "result" when the
    payload's "status" is the text "OK", and the empty mapping in every
    other case: another status, a payload without "status" or without
    "result", a body that is not JSON, a request that raises. *)
Theorem get_location_details_outcomes (place_id : string) (w : W) (log : list call) :
  let params := [("place_id", JStr place_id); ("key", JStr api_key)] in
  let answer := requests_get client details_url params None w in
  (exists v,
      get_location_details client api_key place_id (w, log)
      = (Return v, (snd answer, log ++ [HttpGet details_url params None])))
  /\ (forall code data found,
         fst answer = Return (mkResponse code (Some data)) ->
         getitem data "status" = Return (JStr "OK") ->
         getitem data "result" = Return found ->
         value (get_location_details client api_key place_id (w, log)) = Return found)
  /\ (forall code data status,
         fst answer = Return (mkResponse code (Some data)) ->
         getitem data "status" = Return status ->
         equals_text status "OK" = false ->
         value (get_location_details client api_key place_id (w, log))
         = Return (JDict []))
  /\ (forall code data e,
         fst answer = Return (mkResponse code (Some data)) ->
         getitem data "status" = Raise e \/ getitem data "result" = Raise e ->
         value (get_location_details client api_key place_id (w, log))
         = Return (JDict []))
  /\ (forall code, fst answer = Return (mkResponse code None) ->
                   value (get_location_details client api_key place_id (w, log))
                   = Return (JDict []))
  /\ (forall e, fst answer = Raise e ->
                value (get_location_details client api_key place_id (w, log))
                = Return (JDict [])).
Proof.
  cbv zeta.
  rewrite get_location_details_cases. unfold value. simpl fst.
  split; [eexists; reflexivity |].
  split.
  { intros code data found -> Hs Hr. unfold json. cbn [body rbind].
    rewrite Hs. cbn [rbind equals_text String.eqb Ascii.eqb Bool.eqb]. cbv iota.
    rewrite Hr. reflexivity. }
  split.
  { intros code data status -> Hs Hne. unfold json. cbn [body rbind].
    rewrite Hs. cbn [rbind]. rewrite Hne. reflexivity. }
  split.
  { intros code data e -> [Hs | Hr]; unfold json; cbn [body rbind].
    - rewrite Hs. reflexivity.
    - destruct (getitem data "status") as [status | e1]; [| reflexivity].
      cbn [rbind]. destruct (equals_text status "OK"); [| reflexivity].
      rewrite Hr. reflexivity. }
  split.
  { intros code ->. reflexivity. }
  intros e ->. reflexivity.
Qed.

(** The run of find_running_trails once the location is read. *)
Lemma find_running_trails_runs (location lat lng : pyval) (radius : Z)
      (w : W) (log : list call) :
  getitem location "lat" = Return lat ->
  getitem location "lng" = Return lng ->
  let params := [("location", JStr (str_of fmt lat ++ "," ++ str_of fmt lng));
                 ("radius", JInt radius);
                 ("keyword", JStr "running trail");
                 ("key", JStr api_key)] in
  find_running_trails client api_key fmt location radius (w, log)
  = (Return (match fst (requests_get client nearbysearch_url params None w) with
             | Return r => places_of_response r
             | Raise _ => []
             end),
     (snd (requests_get client nearbysearch_url params None w),
      log ++ [HttpGet nearbysearch_url params None])).
Proof.
  intros Hlat Hlng. cbv zeta.
  unfold find_running_trails, try_except.
  rewrite bind_lift, Hlat. cbv beta iota. rewrite bind_lift, Hlng. cbv beta iota zeta.
  unfold call_requests_get, bind at 1. rewrite maps_issue_runs. simpl fst. simpl snd.
  destruct (requests_get client nearbysearch_url _ None w) as [[r | e] w1];
    simpl fst; simpl snd; cbv beta iota; [| reflexivity].
  unfold places_of_response, bind, lift, ret, rbind.
  destruct (raise_for_status r) as [[] | e]; [| reflexivity].
  destruct (json r) as [payload | e]; [| reflexivity].
  destruct (dict_get payload "results" (JList [])) as [results | e]; [| reflexivity].
  destruct (iterate results) as [items | e]; [| reflexivity].
  destruct (collect place_summary items) as [places | e]; reflexivity.
Qed.

(** X5: find_running_trails sends nothing when the location lacks "lat" or
    "lng": it returns the empty list with the world and the log untouched.
    Otherwise it sends one GET, without timeout, for the keyword "running
    trail" at "lat,lng" within the radius. *)
Theorem find_running_trails_request (location : pyval) (radius : Z)
        (w : W) (log : list call) :
  (forall e, getitem location "lat" = Raise e \/ getitem location "lng" = Raise e ->
             find_running_trails client api_key fmt location radius (w, log)
             = (Return [], (w, log)))
  /\ (forall lat lng,
         getitem location "lat" = Return lat ->
         getitem location "lng" = Return lng ->
         log_after (find_running_trails client api_key fmt location radius (w, log))
         = log ++ [HttpGet nearbysearch_url
                           [("location", JStr (str_of fmt lat ++ "," ++ str_of fmt lng));
                            ("radius", JInt radius);
                            ("keyword", JStr "running trail");
                            ("key", JStr api_key)]
                           None]).
Proof.
  split.
  - intros e [H | H].
    + unfold find_running_trails, try_except. rewrite bind_lift, H. reflexivity.
    + unfold find_running_trails, try_except. rewrite bind_lift.
      destruct (getitem location "lat") as [lat | e1]; [| reflexivity].
      cbv beta iota. rewrite bind_lift, H. reflexivity.
  - intros lat lng Hlat Hlng.
    rewrite (find_running_trails_runs location lat lng radius w log Hlat Hlng).
    reflexivity.
Qed.

(** X6: what the two HTTP searches make of an answer, case by case: nothing of
    an answer whose status code is from 400 to 599, whose body is not JSON
    or not a mapping; nothing of a mapping without "results"; and nothing
    at all as soon as one result is not a mapping, however many well-formed
    results stand beside it. *)
Theorem nearby_search_all_or_nothing
        (lat lng : pyval) (filter : option (list string)) (radius : Z)
        (w w1 : W) (log : list call) (r : response)
        (Hget : requests_get client nearbysearch_url
                             (nearby_params api_key fmt lat lng radius) (Some 10%Z) w
                = (Return r, w1)) :
  ((400 <=? status_code r)%Z && (status_code r <? 600)%Z = true ->
   value (_find_places_nearby client api_key fmt lat lng filter radius (w, log))
   = Return [])
  /\ (body r = None ->
      value (_find_places_nearby client api_key fmt lat lng filter radius (w, log))
      = Return [])
  /\ (forall payload, body r = Some payload -> is_dict payload = false ->
      value (_find_places_nearby client api_key fmt lat lng filter radius (w, log))
      = Return [])
  /\ (forall kvs, body r = Some (JDict kvs) -> lookup "results" kvs = None ->
      value (_find_places_nearby client api_key fmt lat lng filter radius (w, log))
      = Return [])
  /\ (forall kvs items item,
         body r = Some (JDict kvs) -> lookup "results" kvs = Some (JList items) ->
         In item items -> is_dict item = false ->
         value (_find_places_nearby client api_key fmt lat lng filter radius (w, log))
         = Return []).
Proof.
  rewrite find_places_nearby_runs, Hget. unfold value. simpl fst.
  unfold places_of_response, raise_for_status, json.
  split.
  { intros ->. reflexivity. }
  destruct ((400 <=? status_code r)%Z && (status_code r <? 600)%Z);
    [repeat split; reflexivity |].
  cbn [rbind].
  split.
  { intros ->. reflexivity. }
  split.
  { intros payload -> Hd. cbn [rbind].
    destruct payload; try reflexivity. discriminate. }
  split.
  { intros kvs -> Hr. cbn [rbind dict_get]. rewrite Hr. reflexivity. }
  intros kvs items item -> Hr Hin Hd. cbn [rbind dict_get]. rewrite Hr.
  cbn [rbind iterate].
  assert (Hitem : exists e, place_summary item = Raise e).
  { destruct item; try (eexists; reflexivity). discriminate. }
  destruct Hitem as [e0 He0].
  destruct (collect_raises place_summary items item e0 Hin He0) as [e ->].
  reflexivity.
Qed.

(** X7: on an answer whose results are all mappings without "geometry",
    find_running_trails returns one summary per result, in the order of
    the results; each summary has the keys name, address, rating, place_id
    and location, in this order, holds under "address" what the result
    holds under "vicinity", and holds the defaults "Unknown" and "No
    address" where the result has no name or no vicinity. *)
Theorem find_running_trails_summaries
        (location lat lng : pyval) (radius : Z) (w w1 : W) (log : list call)
        (r : response) (kvs : list (string * pyval)) (items : list pyval)
        (Hlat : getitem location "lat" = Return lat)
        (Hlng : getitem location "lng" = Return lng)
        (Hget : requests_get client nearbysearch_url
                  [("location", JStr (str_of fmt lat ++ "," ++ str_of fmt lng));
                   ("radius", JInt radius);
                   ("keyword", JStr "running trail");
                   ("key", JStr api_key)] None w
                = (Return r, w1))
        (Hok : raise_for_status r = Return tt)
        (Hbody : body r = Some (JDict kvs))
        (Hresults : lookup "results" kvs = Some (JList items))
        (Hitems : Forall (fun item => exists fields,
                              item = JDict fields /\ lookup "geometry" fields = None)
                         items) :
  exists trails,
    value (find_running_trails client api_key fmt location radius (w, log))
    = Return trails
    /\ List.length trails = List.length items
    /\ forall k fields,
        nth_error items k = Some (JDict fields) ->
        exists summary,
          nth_error trails k = Some (JDict summary)
          /\ map fst summary = ["name"; "address"; "rating"; "place_id"; "location"]
          /\ lookup "name" summary
             = Some (match lookup "name" fields with
                     | Some v => v
                     | None => JStr "Unknown"
                     end)
          /\ lookup "address" summary
             = Some (match lookup "vicinity" fields with
                     | Some v => v
                     | None => JStr "No address"
                     end)
          /\ lookup "location" summary = Some (JDict []).
Proof.
  rewrite (find_running_trails_runs location lat lng radius w log Hlat Hlng).
  cbv zeta. rewrite Hget. unfold value. simpl fst.
  unfold places_of_response. rewrite Hok. cbn [rbind]. unfold json. rewrite Hbody.
  cbn [rbind dict_get]. rewrite Hresults. cbn [rbind iterate].
  assert (Hall : exists trails, collect place_summary items = Return trails).
  { clear Hresults. induction Hitems as [| item items (fields & -> & Hgeo) _ IH].
    - exists []. reflexivity.
    - destruct IH as [trails Htrails]. simpl collect.
      unfold place_summary at 1. cbn [dict_get rbind].
      destruct (lookup "name" fields), (lookup "vicinity" fields),
        (lookup "rating" fields), (lookup "place_id" fields);
        rewrite Hgeo; cbn [rbind dict_get lookup]; rewrite Htrails;
        eexists; reflexivity. }
  destruct Hall as [trails Htrails]. rewrite Htrails.
  exists trails. split; [reflexivity |].
  split; [apply (collect_length _ _ _ Htrails) |].
  intros k fields Hk.
  destruct (collect_nth _ _ _ _ _ Htrails Hk) as (summary & Hnth & Hsum).
  rewrite Forall_forall in Hitems.
  destruct (Hitems _ (nth_error_In _ _ Hk)) as (fields' & Heq & Hgeo).
  inversion Heq; subst fields'.
  unfold place_summary in Hsum. cbn [dict_get rbind] in Hsum.
  destruct (lookup "name" fields), (lookup "vicinity" fields),
    (lookup "rating" fields), (lookup "place_id" fields);
    rewrite Hgeo in Hsum; cbn [rbind dict_get lookup] in Hsum;
    inversion Hsum; subst summary;
    (eexists; split; [exact Hnth | repeat split]).
Qed.

End Service.
(** ** The theorems at work on concrete vendors *)

Lemma get_directions_never_raises_witness :
  exists e,
    value (get_directions MoreFixtures.maps_mixed Fixtures.show "A" "B" (tt, []))
    = Return ("Error getting directions: " ++ exn_msg e)%string.
Proof.
  destruct (get_directions_never_raises MoreFixtures.maps_mixed Fixtures.show
                                        "A" "B" tt [])
    as (_ & _ & _ & Hroute).
  apply (Hroute [Fixtures.route "5 km" "10 mins" ["Go"]; JDict []] (JDict [])
                (key_error "legs")).
  - reflexivity.
  - right. left. reflexivity.
  - reflexivity.
Defined.

Lemma geocode_address_outcomes_witness :
  value (geocode_address Fixtures.maps_up "1 Main St" (tt, []))
  = Return (JFloat "40.7", JFloat "-74.0").
Proof.
  destruct (geocode_address_outcomes Fixtures.maps_up "1 Main St" tt [])
    as (_ & _ & _ & _ & Hfirst).
  eapply Hfirst; reflexivity.
Defined.

Lemma find_nearby_by_address_is_by_mapping_witness :
  find_nearby_workout_locations Fixtures.maps_up "key" Fixtures.show
                                (JStr "1 Main St") (tt, [])
  = find_nearby_workout_locations Fixtures.maps_up "key" Fixtures.show
                                  (JDict [("lat", JFloat "40.7"); ("lng", JFloat "-74.0")])
                                  (tt, [Geocode "1 Main St"]).
Proof.
  apply (find_nearby_by_address_is_by_mapping
           Fixtures.maps_up "key" Fixtures.show "1 Main St"
           (JFloat "40.7") (JFloat "-74.0") tt []);
    reflexivity.
Defined.

Lemma get_location_details_outcomes_witness :
  value (get_location_details MoreFixtures.maps_details "key" "p1" (tt, []))
  = Return Fixtures.gym.
Proof.
  destruct (get_location_details_outcomes MoreFixtures.maps_details "key" "p1" tt [])
    as (_ & Hok & _).
  apply (Hok 500%Z (JDict [("status", JStr "OK"); ("result", Fixtures.gym)]));
    reflexivity.
Defined.

Lemma find_running_trails_request_witness :
  find_running_trails Fixtures.maps_up "key" Fixtures.show
                      (JDict [("lat", JInt 0)]) 5000 (tt, [])
  = (Return [], (tt, [])).
Proof.
  destruct (find_running_trails_request Fixtures.maps_up "key" Fixtures.show
                                        (JDict [("lat", JInt 0)]) 5000 tt [])
    as (Hmissing & _).
  apply (Hmissing (key_error "lng")). right. reflexivity.
Defined.

Lemma nearby_search_all_or_nothing_witness :
  value (_find_places_nearby MoreFixtures.maps_mixed "key" Fixtures.show
                             (JInt 1) (JInt 2) None 50000 (tt, []))
  = Return [].
Proof.
  destruct (nearby_search_all_or_nothing
              MoreFixtures.maps_mixed "key" Fixtures.show (JInt 1) (JInt 2) None 50000
              tt tt []
              (mkResponse 200 (Some (JDict [("results", JList [Fixtures.gym; JInt 7])])))
              eq_refl)
    as (_ & _ & _ & _ & Hitem).
  apply (Hitem [("results", JList [Fixtures.gym; JInt 7])] [Fixtures.gym; JInt 7]
               (JInt 7)).
  - reflexivity.
  - reflexivity.
  - right. left. reflexivity.
  - reflexivity.
Defined.

Lemma find_running_trails_summaries_witness :
  exists trails,
    value (find_running_trails MoreFixtures.maps_trails "key" Fixtures.show
                               Fixtures.home 5000 (tt, []))
    = Return trails
    /\ List.length trails = 2
    /\ forall k fields,
        nth_error [JDict [("name", JStr "Loop")]; JDict [("vicinity", JStr "Park")]] k
        = Some (JDict fields) ->
        exists summary,
          nth_error trails k = Some (JDict summary)
          /\ map fst summary = ["name"; "address"; "rating"; "place_id"; "location"]
          /\ lookup "name" summary
             = Some (match lookup "name" fields with
                     | Some v => v
                     | None => JStr "Unknown"
                     end)
          /\ lookup "address" summary
             = Some (match lookup "vicinity" fields with
                     | Some v => v
                     | None => JStr "No address"
                     end)
          /\ lookup "location" summary = Some (JDict []).
Proof.
  apply (find_running_trails_summaries
           MoreFixtures.maps_trails "key" Fixtures.show Fixtures.home
           (JFloat "40.7") (JFloat "-74.0") 5000 tt tt []
           (mkResponse 200 (Some (JDict [("results",
                                          JList [JDict [("name", JStr "Loop")];
                                                 JDict [("vicinity", JStr "Park")]])])))
           [("results", JList [JDict [("name", JStr "Loop")];
                               JDict [("vicinity", JStr "Park")]])]
           [JDict [("name", JStr "Loop")]; JDict [("vicinity", JStr "Park")]]);
    try reflexivity.
  repeat constructor; eexists; split; reflexivity.
Defined.

End MapsMore.

(* ===================================================================== *)
(** * maps.py: properties of the places methods                           *)
(* ===================================================================== *)

Module PlacesTheory.
Import Py Maps MapsDetails Places Outcome Text PyFacts TextFacts PlacesVocabulary.
Import MapsMore.

Section Service.
Context {W : Type}.
Variable client : Places.vendor W.
Variable fmt : pyval -> string.

Lemma places_issue_runs {A} (c : Places.call) (f : W -> result A * W) (w : W)
      (log : list Places.call) :
  Places.issue c f (w, log) = (fst (f w), (snd (f w), log ++ [c])).
Proof. unfold Places.issue. simpl. destruct (f w); reflexivity. Qed.







(** X10: the two ways to the details of a place fail differently: when the
    client call raises, get_place_details (like search_places) raises the
    same exception after its one call; when the GET of get_location_details
    raises, that method returns the empty mapping. *)
Theorem place_details_failures
        (maps : Maps.vendor W) (api_key place_id query : string) (location : pyval)
        (radius : Z) (w w1 w2 w3 : W) (log : list Places.call) (log' : list Maps.call)
        (e1 e2 e3 : exn)
        (Hplace : place client place_id w = (Raise e1, w1))
        (Hquery : places client query location radius w = (Raise e2, w2))
        (Hget : requests_get maps details_url
                             [("place_id", JStr place_id); ("key", JStr api_key)] None w
                = (Raise e3, w3)) :
  get_place_details client place_id (w, log)
  = (Raise e1, (w1, log ++ [Place place_id]))
  /\ search_places client query location radius (w, log)
     = (Raise e2, (w2, log ++ [PlacesQuery query location radius]))
  /\ value (get_location_details maps api_key place_id (w, log')) = Return (JDict []).
Proof.
  split; [| split].
  - unfold get_place_details. rewrite log_and_reraise_id, places_issue_runs, Hplace.
    reflexivity.
  - unfold search_places. rewrite log_and_reraise_id, places_issue_runs, Hquery.
    reflexivity.
  - rewrite (get_location_details_cases maps api_key place_id w log'), Hget.
    reflexivity.
Qed.

End Service.



Lemma place_details_failures_witness :
  get_place_details MoreFixtures.places_down "p1" (tt, [])
  = (Raise Fixtures.outage, (tt, [Place "p1"]))
  /\ search_places MoreFixtures.places_down "gym" JNull 5000 (tt, [])
     = (Raise Fixtures.outage, (tt, [PlacesQuery "gym" JNull 5000]))
  /\ value (get_location_details Fixtures.maps_down "key" "p1" (tt, []))
     = Return (JDict []).
Proof.
  apply (place_details_failures
           MoreFixtures.places_down Fixtures.maps_down "key" "p1" "gym" JNull 5000
           tt tt tt tt [] [] Fixtures.outage Fixtures.outage
           (mkExn RequestException "connection refused"));
    reflexivity.
Defined.

End PlacesTheory.

(* ===================================================================== *)
(** * sheets.py: further properties                                       *)
(* ===================================================================== *)

Module SheetsMore.
Import Py Sheets Outcome Text PyFacts TextFacts SheetsVocabulary SheetsTheory.
Import SummaryVocabulary.

Section Service.
Context {W : Type}.
Variable service : vendor W.
Variable fmt : pyval -> string.

(** ** create_workout_tracker, when a step fails *)

(** X11: create_workout_tracker is not atomic.  When the creation raises,
    nothing else is sent; when the creation's answer has no
    "spreadsheetId", the KeyError is raised with the spreadsheet created
    and no header written; when the first header write raises, the second
    is never sent; when the second raises, the first stays written; and in
    each case the exception reaches the caller, who gets no spreadsheet. *)
Theorem create_workout_tracker_failures (title : string) (w : W) (log : list call) :
  (forall e w1,
      create service (tracker_body title) w = (Raise e, w1) ->
      create_workout_tracker service title (w, log)
      = (Raise e, (w1, log ++ [Create (tracker_body title)])))
  /\ (forall created e w1,
         create service (tracker_body title) w = (Return created, w1) ->
         getitem created "spreadsheetId" = Raise e ->
         create_workout_tracker service title (w, log)
         = (Raise e, (w1, log ++ [Create (tracker_body title)])))
  /\ (forall created sid e w1 w2,
         create service (tracker_body title) w = (Return created, w1) ->
         getitem created "spreadsheetId" = Return sid ->
         values_update service sid "Workouts!A1:E1" "RAW" workout_headers w1
         = (Raise e, w2) ->
         create_workout_tracker service title (w, log)
         = (Raise e, (w2, log ++ [Create (tracker_body title);
                                  ValuesUpdate sid "Workouts!A1:E1" "RAW"
                                               workout_headers])))
  /\ (forall created sid r1 e w1 w2 w3,
         create service (tracker_body title) w = (Return created, w1) ->
         getitem created "spreadsheetId" = Return sid ->
         values_update service sid "Workouts!A1:E1" "RAW" workout_headers w1
         = (Return r1, w2) ->
         values_update service sid "Nutrition!A1:G1" "RAW" nutrition_headers w2
         = (Raise e, w3) ->
         create_workout_tracker service title (w, log)
         = (Raise e, (w3, log ++ [Create (tracker_body title);
                                  ValuesUpdate sid "Workouts!A1:E1" "RAW"
                                               workout_headers;
                                  ValuesUpdate sid "Nutrition!A1:G1" "RAW"
                                               nutrition_headers]))).
Proof.
  repeat split.
  - intros e w1 Hc. unfold create_workout_tracker. rewrite log_and_reraise_id.
    unfold bind at 1. rewrite sheets_issue_runs, Hc. reflexivity.
  - intros created e w1 Hc Hid. unfold create_workout_tracker.
    rewrite log_and_reraise_id.
    unfold bind at 1. rewrite sheets_issue_runs, Hc. simpl fst. simpl snd.
    cbv beta iota. rewrite bind_lift, Hid. reflexivity.
  - intros created sid e w1 w2 Hc Hid Hw. unfold create_workout_tracker.
    rewrite log_and_reraise_id.
    unfold bind at 1. rewrite sheets_issue_runs, Hc. simpl fst. simpl snd.
    cbv beta iota. rewrite bind_lift, Hid. cbv beta iota.
    unfold bind at 1. rewrite update_values_runs, Hw. simpl fst. simpl snd.
    cbv beta iota. rewrite <- app_assoc. reflexivity.
  - intros created sid r1 e w1 w2 w3 Hc Hid Hw Hn. unfold create_workout_tracker.
    rewrite log_and_reraise_id.
    unfold bind at 1. rewrite sheets_issue_runs, Hc. simpl fst. simpl snd.
    cbv beta iota. rewrite bind_lift, Hid. cbv beta iota.
    unfold bind at 1. rewrite update_values_runs, Hw. simpl fst. simpl snd.
    cbv beta iota. rewrite bind_lift. cbv beta iota.
    unfold bind at 1. rewrite update_values_runs, Hn. simpl fst. simpl snd.
    cbv beta iota. repeat rewrite <- app_assoc. reflexivity.
Qed.

(** ** create_workout_summary, when a write fails *)

(** X12: when adding the "Summary" sheet raises, create_workout_summary sends
    nothing more and raises that exception; when the header write raises,
    it raises that exception with the sheet added.  Whatever the service
    does, it sends at most these two calls, the first always the addition
    of the sheet, and never writes the range Summary!A2:E4 of the totals. *)
Theorem create_workout_summary_failures (sid : pyval) (w : W) (log : list call) :
  (forall e w1,
      batchUpdate service sid [summary_request] w = (Raise e, w1) ->
      create_workout_summary service sid (w, log)
      = (Raise e, (w1, log ++ [BatchUpdate sid [summary_request]])))
  /\ (forall r1 e w1 w2,
         batchUpdate service sid [summary_request] w = (Return r1, w1) ->
         values_update service sid "Summary!A1:E4" "RAW" summary_headers w1
         = (Raise e, w2) ->
         create_workout_summary service sid (w, log)
         = (Raise e, (w2, log ++ [BatchUpdate sid [summary_request];
                                  ValuesUpdate sid "Summary!A1:E4" "RAW"
                                               summary_headers])))
  /\ (exists rest,
         log_after (create_workout_summary service sid (w, log))
         = log ++ BatchUpdate sid [summary_request] :: rest
         /\ List.length rest <= 1
         /\ existsb (writes_range "Summary!A2:E4") rest = false).
Proof.
  rewrite create_workout_summary_runs. cbv zeta.
  split; [| split].
  - intros e w1 ->. reflexivity.
  - intros r1 e w1 w2 ->. simpl fst. simpl snd. intros ->. reflexivity.
  - destruct (batchUpdate service sid [summary_request] w) as [[r1 | e1] w1];
      simpl fst; simpl snd; cbv iota.
    + eexists. unfold log_after. simpl snd. split; [reflexivity |].
      split; [simpl; lia | reflexivity].
    + exists []. unfold log_after. simpl snd. split; [reflexivity |].
      split; [simpl; lia | reflexivity].
Qed.

(** ** The readers *)

(** X13: the two history readers are get_values at their fixed ranges, and
    get_sheet_data without a query, or with the empty string as query, is
    get_values at its range.  get_values returns the empty list when the
    answer has no "values", and raises what the service raises. *)
Theorem readers_are_get_values (sid : pyval) (range : string) (s : state) :
  get_workout_history service sid s = get_values service sid "Workout History!A:Z" s
  /\ get_nutrition_history service sid s
     = get_values service sid "Nutrition History!A:Z" s
  /\ get_sheet_data service fmt sid range None s = get_values service sid range s
  /\ get_sheet_data service fmt sid range (Some "") s = get_values service sid range s
  /\ (forall w log w1,
         values_get service sid range w = (Return (mkValueRange None), w1) ->
         get_values service sid range (w, log)
         = (Return [], (w1, log ++ [ValuesGet sid range])))
  /\ (forall w log e w1,
         values_get service sid range w = (Raise e, w1) ->
         get_values service sid range (w, log)
         = (Raise e, (w1, log ++ [ValuesGet sid range]))).
Proof.
  repeat split.
  - intros w log w1 H. unfold get_values.
    rewrite (read_runs service sid range (fun rows => rows)), H. reflexivity.
  - intros w log e w1 H. unfold get_values.
    rewrite (read_runs service sid range (fun rows => rows)), H. reflexivity.
Qed.

(** ** get_sheet_data and the case of the query *)

Lemma row_matches_lower (q1 q2 : string) (r : row) :
  lower q1 = lower q2 -> row_matches fmt q1 r = row_matches fmt q2 r.
Proof. intros H. unfold row_matches. rewrite H. reflexivity. Qed.

Lemma filter_loop_lower (q1 q2 : string) (vals filtered : list row) :
  lower q1 = lower q2 ->
  filter_loop fmt q1 vals filtered = filter_loop fmt q2 vals filtered.
Proof.
  intros H. revert filtered. induction vals as [| r vals IH]; intros filtered; simpl.
  - reflexivity.
  - rewrite (row_matches_lower q1 q2 r H), !IH. reflexivity.
Qed.

(** X14: two non-empty queries that differ only in the case of their letters
    make get_sheet_data do the same: same call, same rows, same state. *)
Theorem get_sheet_data_ignores_query_case
        (sid : pyval) (range q1 q2 : string) (s : state)
        (H1 : q1 <> "") (H2 : q2 <> "") (Hcase : lower q1 = lower q2) :
  get_sheet_data service fmt sid range (Some q1) s
  = get_sheet_data service fmt sid range (Some q2) s.
Proof.
  unfold get_sheet_data, query_given.
  destruct (String.eqb_spec q1 ""); [contradiction |].
  destruct (String.eqb_spec q2 ""); [contradiction |].
  rewrite !log_and_reraise_id. unfold bind.
  destruct (issue (ValuesGet sid range) (values_get service sid range) s)
    as [[vr | e] s1]; [| reflexivity].
  rewrite (filter_loop_lower q1 q2 _ _ Hcase). reflexivity.
Qed.

(** ** The entries and the headers *)

(** X15: add_workout_entry appends one row of five cells, date, type, duration,
    calories, notes, to Workouts!A:E, and add_nutrition_entry one row of
    seven cells to Nutrition!A:G: as many cells as the header row that
    create_workout_tracker writes to the same sheet.  Both hand back the
    answer, or the exception, of the service. *)
Theorem entries_fit_the_headers
        (sid : pyval) (date kind duration calories protein carbs fat notes : string)
        (w : W) (log : list call) :
  let workout := texts [date; kind; duration; calories; notes] in
  let meal := texts [date; kind; calories; protein; carbs; fat; notes] in
  add_workout_entry service sid date kind duration calories notes (w, log)
  = (fst (values_append service sid "Workouts!A:E" "USER_ENTERED" "INSERT_ROWS"
                        [workout] w),
     (snd (values_append service sid "Workouts!A:E" "USER_ENTERED" "INSERT_ROWS"
                         [workout] w),
      log ++ [ValuesAppend sid "Workouts!A:E" "USER_ENTERED" "INSERT_ROWS" [workout]]))
  /\ add_nutrition_entry service sid date kind calories protein carbs fat notes (w, log)
     = (fst (values_append service sid "Nutrition!A:G" "USER_ENTERED" "INSERT_ROWS"
                           [meal] w),
        (snd (values_append service sid "Nutrition!A:G" "USER_ENTERED" "INSERT_ROWS"
                            [meal] w),
         log ++ [ValuesAppend sid "Nutrition!A:G" "USER_ENTERED" "INSERT_ROWS" [meal]]))
  /\ map (@List.length pyval) [workout] = map (@List.length pyval) workout_headers
  /\ map (@List.length pyval) [meal] = map (@List.length pyval) nutrition_headers
  /\ sheet_of_range "Workouts!A:E" = sheet_of_range "Workouts!A1:E1"
  /\ sheet_of_range "Nutrition!A:G" = sheet_of_range "Nutrition!A1:G1".
Proof.
  cbv zeta. repeat split.
  - unfold add_workout_entry. rewrite log_and_reraise_id. cbv zeta.
    apply append_values_runs.
  - unfold add_nutrition_entry. rewrite log_and_reraise_id. cbv zeta.
    apply append_values_runs.
Qed.

(** ** The sums of the summary, on a list of rows *)




End Service.
(** ** The theorems at work on a spreadsheet kept in memory *)

Lemma create_workout_tracker_failures_witness :
  create_workout_tracker MoreFixtures.sheets_read_only "Plan" (Fixtures.tracker, [])
  = (Raise Fixtures.outage,
     (Fixtures.tracker,
      [Create (tracker_body "Plan");
       ValuesUpdate (JStr "sheet-1") "Workouts!A1:E1" "RAW" workout_headers])).
Proof.
  destruct (create_workout_tracker_failures MoreFixtures.sheets_read_only "Plan"
                                            Fixtures.tracker [])
    as (_ & _ & Hfirst & _).
  apply (Hfirst (JDict [("spreadsheetId", JStr "sheet-1")]) (JStr "sheet-1")
                Fixtures.outage Fixtures.tracker Fixtures.tracker);
    reflexivity.
Defined.

Lemma create_workout_summary_failures_witness :
  create_workout_summary MoreFixtures.sheets_read_only (JStr "sheet-1")
                         (Fixtures.tracker, [])
  = (Raise Fixtures.outage,
     (Fixtures.tracker, [BatchUpdate (JStr "sheet-1") [summary_request]])).
Proof.
  destruct (create_workout_summary_failures MoreFixtures.sheets_read_only
                                            (JStr "sheet-1") Fixtures.tracker [])
    as (Hadd & _).
  apply (Hadd Fixtures.outage Fixtures.tracker). reflexivity.
Defined.

Lemma readers_are_get_values_witness :
  get_values MoreFixtures.sheets_read_only (JStr "sheet-1") "Workouts!A:E"
             (Fixtures.tracker, [])
  = (Return [], (Fixtures.tracker, [ValuesGet (JStr "sheet-1") "Workouts!A:E"])).
Proof.
  destruct (readers_are_get_values MoreFixtures.sheets_read_only Fixtures.show
                                   (JStr "sheet-1") "Workouts!A:E"
                                   (Fixtures.tracker, []))
    as (_ & _ & _ & _ & Habsent & _).
  apply (Habsent Fixtures.tracker [] Fixtures.tracker). reflexivity.
Defined.

Lemma get_sheet_data_ignores_query_case_witness :
  get_sheet_data (Fixtures.sheets_up (Some Fixtures.history)) Fixtures.show
                 (JStr "sheet-1") "Workouts!A:F" (Some "RUN") (Fixtures.tracker, [])
  = get_sheet_data (Fixtures.sheets_up (Some Fixtures.history)) Fixtures.show
                   (JStr "sheet-1") "Workouts!A:F" (Some "run") (Fixtures.tracker, []).
Proof.
  apply (get_sheet_data_ignores_query_case
           (Fixtures.sheets_up (Some Fixtures.history)) Fixtures.show
           (JStr "sheet-1") "Workouts!A:F" "RUN" "run" (Fixtures.tracker, []));
    [discriminate | discriminate | reflexivity].
Defined.


End SheetsMore.
